(** * AISoc "Talk to the Future" chat: the route handlers and the page logic

    A shallow embedding of
      - [src/app/api/chat/route.ts]         (one-shot handler, module [ChatRoute]),
      - [src/app/api/chat/stream/route.ts]  (streaming handler, module [StreamRoute]),
      - [src/app/page.tsx]                  (the page's send logic, module [Page]),
      - the local-model handler that follows the page in the sources
        (module [LocalRoute]),
    over a small model of the JavaScript operations they use (module [JS]).

    Representation choices, fixed once here:
      - a JavaScript string is the [string] of the bytes of its UTF-8 encoding,
        so [TextEncoder.encode] is the identity and every literal of the
        sources is written byte for byte;
      - a JavaScript number is a binary64 [float];
      - a value produced by [JSON.parse] is a [JS.value]; [VUndefined] is what
        reading a property that is not there gives;
      - what the engine decides (the digits [String] prints for a number, the
        message text of the [TypeError]s it raises, the nesting of arrays at
        which [String] runs out of stack and the [RangeError] it then raises,
        [JSON.parse] itself on the page side) is the [JS.Engine] the
        definitions are parameterised by. *)

From Stdlib Require Import List String Ascii Bool Arith Lia.
From Stdlib Require Import Floats.PrimFloat.
Import ListNotations.

Local Open Scope list_scope.
Local Open Scope string_scope.

(* ================================================================== *)
(** * The JavaScript fragment the sources rely on                      *)
(* ================================================================== *)

Module JS.

#[local] Set Warnings "-register-all".

(** Values as [JSON.parse] builds them.  An object is the list of its own
    properties; [JSON.parse] leaves one entry per key. *)
Inductive value : Type :=
| VUndefined
| VNull
| VBool (b : bool)
| VNum (n : float)
| VStr (s : string)
| VArr (xs : list value)
| VObj (props : list (string * value)).

(** What a [catch (e)] clause receives: only [e?.message] is ever read. *)
Inductive exn : Type := Exn (message : option string).

Definition message (e : exn) : option string :=
  match e with Exn m => m end.

(** The [TypeError]s the modelled operations can raise. *)
Inductive type_error : Type :=
| NotAFunction        (* calling [x.map] where [x.map] is undefined *)
| NotPrimitive        (* [String(o)] on an object without callable [toString] *)
| NullProperty        (* reading a property of [null] *)
| ControllerClosed.   (* [enqueue] or [close] on a closed stream controller *)

(** A computation either returns or throws. *)
Inductive outcome (A : Type) : Type :=
| Ok (a : A)
| Throw (e : exn).
Arguments Ok {A} a.
Arguments Throw {A} e.

Definition obind {A B} (m : outcome A) (k : A -> outcome B) : outcome B :=
  match m with
  | Ok a => k a
  | Throw e => Throw e
  end.

Definition omap {A B} (f : A -> B) (m : outcome A) : outcome B :=
  obind m (fun a => Ok (f a)).

(** State threaded through code that can throw: the state reached before a
    throw is kept, as a [catch] block sees the effects already made. *)
Definition St (S A : Type) : Type := S -> outcome A * S.

Definition ret {S A} (a : A) : St S A := fun s => (Ok a, s).

Definition bind {S A B} (m : St S A) (k : A -> St S B) : St S B :=
  fun s => match m s with
           | (Ok a, s') => k a s'
           | (Throw e, s') => (Throw e, s')
           end.

Definition lift {S A} (m : outcome A) : St S A := fun s => (m, s).

Definition modify {S} (f : S -> S) : St S unit := fun s => (Ok tt, f s).

(** [try { m } catch (e) { h e }] *)
Definition try_catch {S A} (m : St S A) (h : exn -> St S A) : St S A :=
  fun s => match m s with
           | (Ok a, s') => (Ok a, s')
           | (Throw e, s') => h e s'
           end.

(** [try { m } finally { f }], for an [f] that does not throw. *)
Definition try_finally {S A} (m : St S A) (f : S -> S) : St S A :=
  fun s => let '(r, s') := m s in (r, f s').

(** The engine-defined parts: the digits of a number, the [TypeError]s,
    [JSON.parse], and the stack: [String] on an array converts its elements
    by recursion, and an array nested [String_depth] levels deep inside
    arrays exhausts the stack, which raises [RangeError]. *)
Class Engine : Type := {
  Number_toString : float -> string;
  TypeError : type_error -> exn;
  JSON_parse : string -> outcome value;
  String_depth : nat;
  RangeError : exn
}.

(** ** Bytes *)

Definition LF : ascii := "010"%char.
Definition DQUOTE : ascii := "034"%char.
Definition nl : string := String LF "".
Definition dq : string := String DQUOTE "".

(** ** Property access, [??], truthiness *)

Fixpoint own (props : list (string * value)) (k : string) : option value :=
  match props with
  | [] => None
  | (k', v) :: rest => if String.eqb k' k then Some v else own rest k
  end.

(** [v.k] for a [v] that is neither [null] nor [undefined], and a key [k]
    that no built-in prototype defines ([history], [prompt], [role],
    [content], [token]): the own property or [undefined]. *)
Definition get (v : value) (k : string) : value :=
  match v with
  | VObj props => match own props k with Some x => x | None => VUndefined end
  | _ => VUndefined
  end.

(** [v?.k] *)
Definition opt_get (v : value) (k : string) : value :=
  match v with
  | VUndefined | VNull => VUndefined
  | _ => get v k
  end.

(** [v ?? d] *)
Definition nullish_or (v d : value) : value :=
  match v with
  | VUndefined | VNull => d
  | _ => v
  end.

Definition truthy (v : value) : bool :=
  match v with
  | VUndefined | VNull => false
  | VBool b => b
  | VNum n => negb (PrimFloat.eqb n 0%float || negb (PrimFloat.eqb n n))
  | VStr s => negb (String.eqb s "")
  | VArr _ | VObj _ => true
  end.

(** [v === "lit"] *)
Definition is_str (v : value) (lit : string) : bool :=
  match v with
  | VStr s => String.eqb s lit
  | _ => false
  end.

Section Coercion.
Context {E : Engine}.

(** [String(v)], called [depth] arrays down.  An array prints its elements
    joined by commas, [null] and [undefined] elements as nothing, unless the
    stack is exhausted.  A plain object prints through
    [Object.prototype.toString] unless it carries an own [toString]: a value
    from JSON is never callable, [valueOf] then returns the object itself,
    and the conversion throws. *)
Fixpoint String_from (depth : nat) (v : value) : outcome string :=
  match v with
  | VUndefined => Ok "undefined"
  | VNull => Ok "null"
  | VBool true => Ok "true"
  | VBool false => Ok "false"
  | VNum n => Ok (Number_toString n)
  | VStr s => Ok s
  | VArr xs =>
      if (String_depth <=? depth)%nat then Throw RangeError
      else
        let elem (x : value) : outcome string :=
          match x with
          | VUndefined | VNull => Ok ""
          | _ => String_from (S depth) x
          end in
        (fix join (l : list value) : outcome string :=
           match l with
           | [] => Ok ""
           | [x] => elem x
           | x :: rest =>
               obind (elem x) (fun a =>
               obind (join rest) (fun b => Ok (a ++ "," ++ b)))
           end) xs
  | VObj props =>
      match own props "toString" with
      | Some _ => Throw (TypeError NotPrimitive)
      | None => Ok "[object Object]"
      end
  end.

Definition String_ (v : value) : outcome string := String_from 0 v.

End Coercion.

(** ** [String.prototype.trim]

    White space and line terminators of ECMAScript, as UTF-8 byte sequences:
    TAB, LF, VT, FF, CR, SP; U+00A0; U+1680; U+2000..U+200A, U+2028, U+2029,
    U+202F; U+205F; U+3000; U+FEFF. *)

Definition ws1 (c : ascii) : bool :=
  let n := nat_of_ascii c in
  (((9 <=? n) && (n <=? 13)) || (n =? 32))%nat.

Definition ws2 (c1 c2 : ascii) : bool :=
  ((nat_of_ascii c1 =? 194) && (nat_of_ascii c2 =? 160))%nat.

Definition ws3 (c1 c2 c3 : ascii) : bool :=
  let a := nat_of_ascii c1 in
  let b := nat_of_ascii c2 in
  let c := nat_of_ascii c3 in
  (((a =? 225) && (b =? 154) && (c =? 128))
   || ((a =? 226) && (b =? 128)
       && (((128 <=? c) && (c <=? 138)) || (c =? 168) || (c =? 169) || (c =? 175)))
   || ((a =? 226) && (b =? 129) && (c =? 159))
   || ((a =? 227) && (b =? 128) && (c =? 128))
   || ((a =? 239) && (b =? 187) && (c =? 191)))%nat.

(** Strips white space from the front of [s]; with [back], [s] is a reversed
    string and the multi-byte sequences are matched last byte first. *)
Fixpoint strip (back : bool) (s : string) : string :=
  match s with
  | String c1 t1 =>
      if ws1 c1 then strip back t1
      else
        match t1 with
        | String c2 t2 =>
            if (if back then ws2 c2 c1 else ws2 c1 c2) then strip back t2
            else
              match t2 with
              | String c3 t3 =>
                  if (if back then ws3 c3 c2 c1 else ws3 c1 c2 c3)
                  then strip back t3
                  else s
              | EmptyString => s
              end
        | EmptyString => s
        end
  | EmptyString => s
  end.

Fixpoint rev_onto (s acc : string) : string :=
  match s with
  | EmptyString => acc
  | String c t => rev_onto t (String c acc)
  end.

Definition rev (s : string) : string := rev_onto s "".

Definition trimStart (s : string) : string := strip false s.
Definition trimEnd (s : string) : string := rev (strip true (rev s)).
Definition trim (s : string) : string := trimEnd (trimStart s).

(** [s.trim().length > 0] *)
Definition nonblank (s : string) : bool :=
  negb (String.length (trim s) =? 0)%nat.

(** ** [split("\n")], [startsWith], [slice(n)] *)

Fixpoint split_lines (s : string) : list string :=
  match s with
  | EmptyString => [""]
  | String c t =>
      if Ascii.eqb c LF then "" :: split_lines t
      else
        match split_lines t with
        | l :: ls => String c l :: ls
        | [] => [String c ""]
        end
  end.

Definition startsWith (s p : string) : bool := String.prefix p s.

Fixpoint slice (n : nat) (s : string) : string :=
  match n, s with
  | O, _ => s
  | S n', String _ t => slice n' t
  | S _, EmptyString => EmptyString
  end.

(** ** [JSON.stringify] of a string: [QuoteJSONString] on UTF-8 bytes *)

Definition hex_digit (n : nat) : ascii :=
  if (n <? 10)%nat then ascii_of_nat (48 + n) else ascii_of_nat (87 + n).

Definition quote_byte (c : ascii) : string :=
  let n := nat_of_ascii c in
  if (n =? 34)%nat then String "\" dq
  else if (n =? 92)%nat then "\\"
  else if (n =? 8)%nat then "\b"
  else if (n =? 9)%nat then "\t"
  else if (n =? 10)%nat then "\n"
  else if (n =? 12)%nat then "\f"
  else if (n =? 13)%nat then "\r"
  else if (n <? 32)%nat then
    "\u00" ++ String (hex_digit (n / 16)) (String (hex_digit (n mod 16)) "")
  else String c "".

Fixpoint quote_bytes (s : string) : string :=
  match s with
  | EmptyString => ""
  | String c t => quote_byte c ++ quote_bytes t
  end.

Definition JSON_quote (s : string) : string := dq ++ quote_bytes s ++ dq.

(** [JSON.stringify({ k: s })] for a string [s]. *)
Definition JSON_stringify_field (k s : string) : string :=
  "{" ++ JSON_quote k ++ ":" ++ JSON_quote s ++ "}".

End JS.

Module StNotations.
Notation "x <- m ;; k" := (JS.bind m (fun x => k))
  (at level 61, m at next level, right associativity).
Notation "m ;;; k" := (JS.bind m (fun _ => k))
  (at level 61, right associativity).
End StNotations.

Import StNotations.

(* ================================================================== *)
(** * The generative-language client, as the handlers see it           *)
(* ================================================================== *)

Module Gemini.

(** One turn of the [contents] array of a request. *)
Module Part.
Record t : Type := mk { text : string }.
End Part.

Module Content.
Record t : Type := mk { role : string; parts : list Part.t }.
End Content.

(** The fields of a one-shot result that [route.ts] reads, each of them
    possibly missing: [result.response?.candidates?.[0]?.content?.parts?.[0]?.text]. *)
Module Reply.
Record part : Type := mk_part { text : option string }.
Record content : Type := mk_content { parts : option (list part) }.
Record candidate : Type := mk_candidate { content_of : option content }.
Record response : Type := mk_response { candidates : option (list candidate) }.
Record result : Type := mk_result { response_of : option response }.
End Reply.

(** What iterating [response.stream] does: it ends, it throws, or it hands
    over a chunk, whose [chunk.text()] returns or throws, and goes on. *)
Inductive stream : Type :=
| StreamEnd
| StreamThrows (e : JS.exn)
| StreamChunk (text : JS.outcome string) (rest : stream).

(** The two calls made on the model object. *)
Record backend : Type := {
  generateContent : list Content.t -> JS.outcome Reply.result;
  generateContentStream : list Content.t -> JS.outcome stream
}.

(** An outbound call, as recorded on the wire. *)
Inductive call : Type :=
| CallGenerateContent (contents : list Content.t)
| CallGenerateContentStream (contents : list Content.t).

End Gemini.

(* ================================================================== *)
(** * What a handler receives and returns                              *)
(* ================================================================== *)

Module Http.

(** [process.env.GOOGLE_API_KEY] *)
Record env : Type := { GOOGLE_API_KEY : option string }.

(** [!process.env.GOOGLE_API_KEY] *)
Definition key_missing (e : env) : bool :=
  match GOOGLE_API_KEY e with
  | None => true
  | Some k => String.eqb k ""
  end.

(** A request, by what [await req.json()] does with its body. *)
Record request : Type := { json : JS.outcome JS.value }.

(** The state of a [ReadableStream] controller: the chunks enqueued so far,
    oldest first, and whether [close] was called. *)
Record controller : Type := mk_controller {
  queue : list string;
  closed : bool
}.

Inductive body : Type :=
| JsonBody (v : JS.value)            (* [NextResponse.json(v, ...)] *)
| TextBody (s : string)              (* [new NextResponse(s, ...)] *)
| StreamBody (started : JS.outcome unit) (c : controller).
                                     (* [new Response(stream, ...)] *)

Record response : Type := mk_response {
  status : nat;
  headers : list (string * string);
  body_of : body
}.

Definition NextResponse_json (v : JS.value) (status : nat) : response :=
  mk_response status [] (JsonBody v).

Definition NextResponse_text (s : string) (status : nat) : response :=
  mk_response status [] (TextBody s).

End Http.

(* ================================================================== *)
(** * The text common to both route files                              *)
(* ================================================================== *)

(** [route.ts] lines 7-28 and 44-82 and [stream/route.ts] lines 7-28 and
    41-74 are the same text; it is embedded once. *)
Module Shared.
Import JS Gemini.

Definition SYSTEM_PREAMBLE : string :=
  "You are " ++ dq ++ "Microchip" ++ dq
    ++ ", the AI assistant for AISoc (Artificial Intelligence Society)." ++ nl
  ++ "Microchip characteristics:" ++ nl
  ++ "- Tone: friendly, practical, upbeat; concise by default." ++ nl
  ++ "- Style: clear structure, bullet points when useful, examples when helpful." ++ nl
  ++ "- Behavior: ask one brief clarifying question if the user's intent is ambiguous." ++ nl
  ++ "- Safety: avoid speculation; cite assumptions; do not disclose private keys or internal credentials." ++ nl
  ++ "- Identity: you are part of AISoc; you can say " ++ dq ++ "we" ++ dq
    ++ " for AISoc initiatives." ++ nl
  ++ "Formatting:" ++ nl
  ++ "- Use short paragraphs and bullets. Keep code minimal and runnable." ++ nl.

Definition MODEL_ID : string := "gemini-2.0-flash".

(** [type Msg = { role: Role; content: string }] *)
Module Msg.
Record t : Type := mk { role : string; content : string }.
End Msg.

Fixpoint map_outcome {A B} (f : A -> outcome B) (l : list A) : outcome (list B) :=
  match l with
  | [] => Ok []
  | x :: rest =>
      obind (f x) (fun y =>
      obind (map_outcome f rest) (fun ys => Ok (y :: ys)))
  end.

Definition push {A} (arr : list A) (x : A) : list A := (arr ++ [x])%list.

Section WithEngine.
Context {E : Engine}.

(** [arr.map(f)]: only an array has a [map] to call. *)
Definition array_map {B} (arr : value) (f : value -> outcome B)
  : outcome (list B) :=
  match arr with
  | VArr xs => map_outcome f xs
  | _ => Throw (TypeError NotAFunction)
  end.

(** [const prompt = String(body?.prompt ?? "")] *)
Definition prompt_of (body : value) : outcome string :=
  String_ (nullish_or (opt_get body "prompt") (VStr "")).

(** [const historyUnsafe = (body?.history ?? [])] *)
Definition historyUnsafe (body : value) : value :=
  nullish_or (opt_get body "history") (VArr []).

(** The callback of [.map]:
    [{ role: m?.role === "user" || m?.role === "assistant" ? m.role : "user",
       content: String(m?.content ?? "") }] *)
Definition narrow (m : value) : outcome Msg.t :=
  let role :=
    if is_str (opt_get m "role") "user" || is_str (opt_get m "role") "assistant"
    then match get m "role" with VStr r => r | _ => "user" end
    else "user" in
  obind (String_ (nullish_or (opt_get m "content") (VStr ""))) (fun content =>
  Ok (Msg.mk role content)).

(** [historyUnsafe.map(...).filter((m) => m.content.trim().length > 0)] *)
Definition history_of (body : value) : outcome (list Msg.t) :=
  omap (filter (fun m => nonblank (Msg.content m)))
       (array_map (historyUnsafe body) narrow).

Definition user_turn (text : string) : Content.t :=
  Content.mk "user" [Part.mk text].

(** The body of [for (const m of history) contents.push(...)]. *)
Definition push_msg (contents : list Content.t) (m : Msg.t) : list Content.t :=
  push contents
       (Content.mk (if String.eqb (Msg.role m) "user" then "user" else "model")
                   [Part.mk (Msg.content m)]).

(** [contents], from [const contents = []] to the last [push]. *)
Definition contents_of (history : list Msg.t) (prompt : string)
  : list Content.t :=
  let contents := [] in
  let contents := push contents (user_turn SYSTEM_PREAMBLE) in
  let contents := fold_left push_msg history contents in
  push contents (user_turn prompt).

(** From the body to the argument of the backend call, in source order. *)
Definition build_contents (body : value) : outcome (list Content.t) :=
  obind (prompt_of body) (fun prompt =>
  obind (history_of body) (fun history =>
  Ok (contents_of history prompt))).

End WithEngine.
End Shared.

(* ================================================================== *)
(** * [src/app/api/chat/route.ts]                                      *)
(* ================================================================== *)

Module ChatRoute.
Import JS Gemini Http Shared.

(** [a?.b] on a field that may be missing. *)
Definition chain {A B} (a : option A) (f : A -> option B) : option B :=
  match a with
  | Some x => f x
  | None => None
  end.

(** [result.response?.candidates?.[0]?.content?.parts?.[0]?.text ?? "..."] *)
Definition reply_text (result : Reply.result) : string :=
  match
    chain (Reply.response_of result) (fun response =>
    chain (Reply.candidates response) (fun candidates =>
    chain (hd_error candidates) (fun candidate =>
    chain (Reply.content_of candidate) (fun content =>
    chain (Reply.parts content) (fun parts =>
    chain (hd_error parts) Reply.text)))))
  with
  | Some text => text
  | None => "..."
  end.

(** [err?.message ?? fallback] *)
Definition message_or (err : exn) (fallback : string) : string :=
  match message err with
  | Some m => m
  | None => fallback
  end.

Section WithEngine.
Context {E : Engine}.

(** [await model.generateContent({ contents })], with the call recorded. *)
Definition call_generateContent (b : backend) (contents : list Content.t)
  : St (list call) Reply.result :=
  fun log => (generateContent b contents,
              (log ++ [CallGenerateContent contents])%list).

(** The handler: the [try] block, then the [catch]. *)
Definition POST_handler (e : env) (req : request) (b : backend)
  : St (list call) response :=
  try_catch
    (body <- lift (json req);;
     if key_missing e then
       ret (NextResponse_json
              (VObj [("error", VStr "Missing GOOGLE_API_KEY")]) 500)
     else
       contents <- lift (build_contents body);;
       result <- call_generateContent b contents;;
       let text := reply_text result in
       ret (NextResponse_json (VObj [("reply", VStr text)]) 200))
    (fun err =>
       ret (NextResponse_json
              (VObj [("error", VStr (message_or err "Server error"))]) 500)).

(** What the handler returns, and the outbound calls made meanwhile. *)
Definition POST (e : env) (req : request) (b : backend)
  : outcome response * list call :=
  POST_handler e req b [].

End WithEngine.
End ChatRoute.

(* ================================================================== *)
(** * [src/app/api/chat/stream/route.ts]                               *)
(* ================================================================== *)

Module StreamRoute.
Import JS Gemini Http Shared.

Definition message_or := ChatRoute.message_or.

(** The records written on the stream. *)
Definition token_record (text : string) : string :=
  "data: " ++ JSON_stringify_field "token" text ++ nl ++ nl.

Definition done_record : string :=
  "event: done" ++ nl ++ "data: [DONE]" ++ nl ++ nl.

Definition error_record (e : exn) : string :=
  "event: error" ++ nl ++ "data: "
    ++ JSON_stringify_field "error" (message_or e "stream error") ++ nl ++ nl.

Definition stream_headers : list (string * string) :=
  [("Content-Type", "text/event-stream; charset=utf-8");
   ("Cache-Control", "no-cache, no-transform");
   ("Connection", "keep-alive");
   ("Transfer-Encoding", "chunked")].

Section WithEngine.
Context {E : Engine}.

(** [controller.enqueue(encoder.encode(chunk))] *)
Definition enqueue (chunk : string) : St controller unit :=
  fun c =>
    if closed c then (Throw (TypeError ControllerClosed), c)
    else (Ok tt, mk_controller (queue c ++ [chunk])%list false).

(** [controller.close()] *)
Definition close : St controller unit :=
  fun c =>
    if closed c then (Throw (TypeError ControllerClosed), c)
    else (Ok tt, mk_controller (queue c) true).

(** [const send = (data) => controller.enqueue(encoder.encode(`data: ${data}\n\n`))] *)
Definition send (data : string) : St controller unit :=
  enqueue ("data: " ++ data ++ nl ++ nl).

(** [for await (const chunk of response.stream) { ... }] *)
Fixpoint for_await (s : stream) : St controller unit :=
  match s with
  | StreamEnd => ret tt
  | StreamThrows e => lift (Throw e)
  | StreamChunk chunk_text rest =>
      text <- lift chunk_text;;
      (if negb (String.eqb text "")
       then send (JSON_stringify_field "token" text)
       else ret tt);;;
      for_await rest
  end.

(** [async start(controller) { try { ... } catch (e) { ... } }] *)
Definition start (s : stream) : St controller unit :=
  try_catch
    (for_await s;;;
     enqueue done_record;;;
     close)
    (fun e =>
       enqueue (error_record e);;;
       close).

(** [await model.generateContentStream({ contents })], with the call recorded. *)
Definition call_generateContentStream (b : backend) (contents : list Content.t)
  : St (list call) stream :=
  fun log => (generateContentStream b contents,
              (log ++ [CallGenerateContentStream contents])%list).

(** [new Response(new ReadableStream({ start }), { headers })] *)
Definition stream_response (s : stream) : response :=
  let '(started, c) := start s (mk_controller [] false) in
  mk_response 200 stream_headers (StreamBody started c).

Definition POST_handler (e : env) (req : request) (b : backend)
  : St (list call) response :=
  try_catch
    (body <- lift (json req);;
     if key_missing e then
       ret (NextResponse_text "Missing GOOGLE_API_KEY" 500)
     else
       contents <- lift (build_contents body);;
       response <- call_generateContentStream b contents;;
       ret (stream_response response))
    (fun err => ret (NextResponse_text (message_or err "Server error") 500)).

Definition POST (e : env) (req : request) (b : backend)
  : outcome response * list call :=
  POST_handler e req b [].

End WithEngine.
End StreamRoute.

(* ================================================================== *)
(** * [src/app/page.tsx]: the state and the send logic of [Home]        *)
(* ================================================================== *)

Module Page.
Import JS.

(** [type Msg = { role: Role; content: string }] *)
Module Msg.
Record t : Type := mk { role : string; content : string }.
End Msg.

Definition MODEL_LABEL : string := "gemini-2.0-flash".

(** The four [useState] cells. *)
Record ui : Type := mk_ui {
  messages : list Msg.t;
  input : string;
  useStreaming : bool;
  isLoading : bool
}.

(** U+2019, the apostrophe of the greeting. *)
Definition rsquo : string :=
  String (ascii_of_nat 226) (String (ascii_of_nat 128) (String (ascii_of_nat 153) "")).

Definition greeting : string :=
  "Hi! I" ++ rsquo ++ "m Microchip, AISoc" ++ rsquo
    ++ "s friendly assistant. Ask me anything. Toggle streaming for real-time tokens.".

Definition initial : ui :=
  mk_ui [Msg.mk "assistant" greeting] "" true false.

Definition fallback : string :=
  "Sorry, something went wrong. Please try again in a moment.".

(** [setMessages(f)], [setInput(v)], [setIsLoading(v)]: updates apply in the
    order they are issued, each to the state the previous one left. *)
Definition setMessages (f : list Msg.t -> list Msg.t) : St ui unit :=
  modify (fun s => mk_ui (f (messages s)) (input s) (useStreaming s) (isLoading s)).

Definition setInput (v : string) : St ui unit :=
  modify (fun s => mk_ui (messages s) v (useStreaming s) (isLoading s)).

Definition setIsLoading (v : bool) : St ui unit :=
  modify (fun s => mk_ui (messages s) (input s) (useStreaming s) v).

Definition setUseStreaming (f : bool -> bool) : St ui unit :=
  modify (fun s => mk_ui (messages s) (input s) (f (useStreaming s)) (isLoading s)).

(** ** The network, as the page sees it *)

Record payload : Type := mk_payload {
  history : list Msg.t;
  prompt : string
}.

(** [{ reply?: string; error?: string }] *)
Record reply_data : Type := mk_reply_data {
  reply : option string;
  error : option string
}.

(** The response of [/api/chat]: [res.ok] and what [await res.json()] does. *)
Record chat_response : Type := mk_chat_response {
  chat_ok : bool;
  chat_json : outcome reply_data
}.

(** What successive [await reader.read()] calls do: report the end, throw,
    or hand over a chunk, given here by the text [decoder.decode] makes of it. *)
Inductive reader : Type :=
| ReadDone
| ReadThrows (e : exn)
| ReadChunk (chunk : string) (rest : reader).

(** The response of [/api/chat/stream]: [res.ok] and [res.body]. *)
Record stream_response : Type := mk_stream_response {
  stream_ok : bool;
  stream_body : option reader
}.

(** [fetch] on the two endpoints: it resolves or rejects. *)
Record network : Type := {
  fetch_chat : payload -> outcome chat_response;
  fetch_stream : payload -> outcome stream_response
}.

(** [buildPayload], reading the [messages] of the render it closes over. *)
Definition buildPayload (closure : ui) (prompt : string) : payload :=
  let history := map (fun m => Msg.mk (Msg.role m) (Msg.content m)) (messages closure) in
  mk_payload history prompt.

(** [l[i] = f(l[i])] for an index inside [l]. *)
Fixpoint assign (i : nat) (f : Msg.t -> Msg.t) (l : list Msg.t) : list Msg.t :=
  match l, i with
  | [], _ => []
  | m :: rest, O => f m :: rest
  | m :: rest, S i' => m :: assign i' f rest
  end.

(** The updater of the streaming loop:
    [const next = [...prev]; const lastIdx = next.length - 1;
     next[lastIdx] = { ...next[lastIdx], content: assistantText }; return next;]
    On an empty array the index is -1, which names no element. *)
Definition replace_last (assistantText : string) (prev : list Msg.t) : list Msg.t :=
  let next := prev in
  match List.length next with
  | O => next
  | S lastIdx => assign lastIdx (fun m => Msg.mk (Msg.role m) assistantText) next
  end.

(** [{props.content || <span>Thinking...</span>}]: what a bubble shows. *)
Definition bubble_text (content : string) : string :=
  if truthy (VStr content) then content else "Thinking...".

Section WithEngine.
Context {E : Engine}.

(** [obj.token] *)
Definition token_of (obj : value) : outcome value :=
  match obj with
  | VUndefined | VNull => Throw (TypeError NullProperty)
  | _ => Ok (get obj "token")
  end.

(** The body of [for (const line of lines)], returning [assistantText]. *)
Definition on_line (line : string) (assistantText : string) : St ui string :=
  let trimmed := trim line in
  if String.eqb trimmed "" then ret assistantText
  else if startsWith trimmed "data: " then
    let payload := slice 6 trimmed in
    if String.eqb payload "[DONE]" then ret assistantText
    else
      try_catch
        (obj <- lift (JSON_parse payload);;
         token <- lift (token_of obj);;
         if truthy token then
           text <- lift (String_ token);;
           let assistantText := assistantText ++ text in
           setMessages (replace_last assistantText);;;
           ret assistantText
         else ret assistantText)
        (fun _ => ret assistantText)
  else ret assistantText.

Fixpoint for_lines (lines : list string) (assistantText : string)
  : St ui string :=
  match lines with
  | [] => ret assistantText
  | line :: rest =>
      assistantText <- on_line line assistantText;;
      for_lines rest assistantText
  end.

(** [for (;;) { const { value, done } = await reader.read(); ... }] *)
Fixpoint read_loop (r : reader) (assistantText : string) : St ui unit :=
  match r with
  | ReadDone => ret tt
  | ReadThrows e => lift (Throw e)
  | ReadChunk chunk rest =>
      let lines := split_lines chunk in
      assistantText <- for_lines lines assistantText;;
      read_loop rest assistantText
  end.

Definition sendNonStreaming (net : network) (closure : ui) (prompt : string)
  : St ui unit :=
  let payload := buildPayload closure prompt in
  res <- lift (fetch_chat net payload);;
  if negb (chat_ok res) then lift (Throw (Exn (Some "Request failed")))
  else
    data <- lift (chat_json res);;
    let reply := match reply data with Some r => r | None => "..." end in
    setMessages (fun m => m ++ [Msg.mk "assistant" reply])%list.

Definition sendStreaming (net : network) (closure : ui) (prompt : string)
  : St ui unit :=
  let payload := buildPayload closure prompt in
  setMessages (fun m => m ++ [Msg.mk "assistant" ""])%list;;;
  res <- lift (fetch_stream net payload);;
  match stream_ok res, stream_body res with
  | true, Some reader => read_loop reader ""
  | _, _ => lift (Throw (Exn (Some "Stream request failed")))
  end.

(** [onSend], run from the render whose state is the current one.  The
    scroll queued after the user message is appended touches none of the
    four cells and is left out. *)
Definition onSend (net : network) : St ui unit :=
  fun closure =>
    let prompt := trim (input closure) in
    if String.eqb prompt "" || isLoading closure then (Ok tt, closure)
    else
      (setInput "";;;
       let nextMessages := (messages closure ++ [Msg.mk "user" prompt])%list in
       setMessages (fun _ => nextMessages);;;
       setIsLoading true;;;
       try_finally
         (try_catch
            (if useStreaming closure
             then sendStreaming net closure prompt
             else sendNonStreaming net closure prompt)
            (fun _ =>
               setMessages (fun m => m ++ [Msg.mk "assistant" fallback])%list))
         (fun s => mk_ui (messages s) (input s) (useStreaming s) false))
        closure.

End WithEngine.
End Page.

(* ================================================================== *)
(** * The local-model handler                                          *)
(* ================================================================== *)

Module LocalRoute.
Import JS.

(** [interface Message { role: "user" | "system"; content: string }] *)
Module Message.
Record t : Type := mk { role : string; content : string }.
End Message.

(** [interface ChatRequest], each [?] field possibly missing. *)
Record ChatRequest : Type := mk_ChatRequest {
  messages : list Message.t;
  system_prompt : option string;
  model : option string;
  temperature : option float
}.

(** The object handed to [JSON.stringify] for the outbound body. *)
Record outbound_body : Type := mk_outbound_body {
  out_model : string;
  out_messages : list Message.t;
  out_stream : bool;
  out_options_temperature : float
}.

(** The arguments of the outbound [fetch]. *)
Record outbound : Type := mk_outbound {
  url : string;
  method : string;
  out_headers : list (string * string);
  out_body : outbound_body
}.

(** [new Response(response.body, { headers })] *)
Record passthrough (B : Type) : Type := mk_passthrough {
  res_headers : list (string * string);
  res_body : B
}.
Arguments mk_passthrough {B} _ _.
Arguments res_headers {B} _.
Arguments res_body {B} _.

(** Truthiness of an optional string and of an optional number. *)
Definition truthy_string (s : option string) : bool :=
  match s with
  | Some v => truthy (VStr v)
  | None => false
  end.

Definition truthy_number (n : option float) : bool :=
  match n with
  | Some v => truthy (VNum v)
  | None => false
  end.

(** [system_prompt ? [{ role: "system", content: system_prompt }, ...messages] : messages] *)
Definition allMessages (r : ChatRequest) : list Message.t :=
  match system_prompt r with
  | Some p =>
      if truthy (VStr p) then Message.mk "system" p :: messages r
      else messages r
  | None => messages r
  end.

(** The literal [0.8]: the binary64 nearest to eight tenths. *)
#[warnings="-inexact-float"]
Definition default_temperature : float := 0.8%float.

(** The request sent to the local server. *)
Definition outbound_of (r : ChatRequest) : outbound :=
  mk_outbound
    "http://localhost:11434/api/chat"
    "POST"
    [("Content-Type", "application/json")]
    (mk_outbound_body
       (match model r with
        | Some m => if truthy (VStr m) then m else "pirate-bot"
        | None => "pirate-bot"
        end)
       (allMessages r)
       true
       (match temperature r with
        | Some t => if truthy (VNum t) then t else default_temperature
        | None => default_temperature
        end)).

(** [POST]: one outbound [fetch], whose body is handed back untouched. *)
Definition POST {B} (r : ChatRequest) (fetch : outbound -> outcome B)
  : outcome (passthrough B) * list outbound :=
  (omap (mk_passthrough [("Content-Type", "text/event-stream")])
        (fetch (outbound_of r)),
   [outbound_of r]).

End LocalRoute.

(* ================================================================== *)
(** * The vocabulary of the specification                              *)
(* ================================================================== *)

Module Spec.
Import JS Gemini Http Shared.

(** "role is forced to user unless it is exactly assistant" *)
Definition forced_role (m : value) : string :=
  if is_str (opt_get m "role") "assistant" then "assistant" else "user".

Definition valid_role (m : Msg.t) : Prop :=
  Msg.role m = "user" \/ Msg.role m = "assistant".

(** "mapped to user (if role was user) or model (if role was assistant)" *)
Definition turn_of (m : Msg.t) : Content.t :=
  Content.mk (if String.eqb (Msg.role m) "assistant" then "model" else "user")
             [Part.mk (Msg.content m)].

(** The persona instruction, as the source spells it. *)
Definition persona_text : string :=
  "You are " ++ dq ++ "Microchip" ++ dq ++ ", the AI assistant for AISoc (Artificial Intelligence Society).
Microchip characteristics:
- Tone: friendly, practical, upbeat; concise by default.
- Style: clear structure, bullet points when useful, examples when helpful.
- Behavior: ask one brief clarifying question if the user's intent is ambiguous.
- Safety: avoid speculation; cite assumptions; do not disclose private keys or internal credentials.
- Identity: you are part of AISoc; you can say " ++ dq ++ "we" ++ dq ++ " for AISoc initiatives.
Formatting:
- Use short paragraphs and bullets. Keep code minimal and runnable.
".

(** "leading synthetic turn, then each surviving history entry, then a final
    user turn containing the prompt" *)
Definition expected_contents (history : list Msg.t) (prompt : string)
  : list Content.t :=
  (Content.mk "user" [Part.mk persona_text]
   :: map turn_of history
   ++ [Content.mk "user" [Part.mk prompt]])%list.

(** The entries supplied as [history]: those of the array, none when
    [history] is missing or [null]. *)
Definition entries_of (body : value) : list value :=
  match opt_get body "history" with
  | VArr entries => entries
  | _ => []
  end.

(** "the first candidate's first text part", when there is one. *)
Definition first_text (result : Reply.result) : option string :=
  match result with
  | Reply.mk_result
      (Some (Reply.mk_response
         (Some (Reply.mk_candidate
            (Some (Reply.mk_content
               (Some (Reply.mk_part (Some text) :: _)))) :: _)))) => Some text
  | _ => None
  end.

(** The fragments that arrive before the backend stream ends or fails, and
    the failure that ends it, if any. *)
Fixpoint arrived (s : stream) : list string :=
  match s with
  | StreamChunk (Ok text) rest => text :: arrived rest
  | _ => []
  end.

Fixpoint failure (s : stream) : option exn :=
  match s with
  | StreamEnd => None
  | StreamThrows e => Some e
  | StreamChunk (Throw e) _ => Some e
  | StreamChunk (Ok _) rest => failure rest
  end.

Definition terminal_record (f : option exn) : string :=
  match f with
  | None => StreamRoute.done_record
  | Some e => StreamRoute.error_record e
  end.

Definition nonempty (s : string) : bool := negb (String.eqb s "").

Section WithEngine.
Context {E : Engine}.

(** The values [String] converts without throwing, [depth] arrays down:
    everything but an object with an own [toString] and an array nested too
    deep for the stack, alone or as an element of an array. *)
Fixpoint coercible_from (depth : nat) (v : value) : bool :=
  match v with
  | VArr xs =>
      (depth <? String_depth)%nat
      && (fix all (l : list value) : bool :=
            match l with
            | [] => true
            | x :: rest => coercible_from (S depth) x && all rest
            end) xs
  | VObj props =>
      match own props "toString" with
      | Some _ => false
      | None => true
      end
  | _ => true
  end.

Definition coercible (v : value) : bool := coercible_from 0 v.

(** The bodies the coercions accept: [prompt] convertible, and [history]
    missing, [null] or an array whose every [content] is convertible. *)
Definition prompt_accepted (body : value) : bool :=
  coercible (nullish_or (opt_get body "prompt") (VStr "")).

Definition history_accepted (body : value) : bool :=
  match opt_get body "history" with
  | VArr entries =>
      forallb (fun m => coercible (nullish_or (opt_get m "content") (VStr "")))
              entries
  | VUndefined | VNull => true
  | _ => false
  end.

Definition accepted (body : value) : bool :=
  prompt_accepted body && history_accepted body.

(** The values that convert whatever the stack: everything that is neither
    an array nor an object with an own [toString]. *)
Definition plain (v : value) : bool :=
  match v with
  | VArr _ => false
  | VObj props =>
      match own props "toString" with
      | Some _ => false
      | None => true
      end
  | _ => true
  end.

(** The bodies made of plain fields: [history] missing, [null] or an array,
    [prompt] and every [content] missing, [null], a string, a number, a
    boolean or an object without an own [toString]. *)
Definition plain_body (body : value) : bool :=
  plain (opt_get body "prompt")
  && match opt_get body "history" with
     | VArr entries => forallb (fun m => plain (opt_get m "content")) entries
     | VUndefined | VNull => true
     | _ => false
     end.

(** [history] is there and is neither [null] nor an array. *)
Definition history_not_array (body : value) : bool :=
  match opt_get body "history" with
  | VArr _ | VUndefined | VNull => false
  | _ => true
  end.

(** An object with an own [toString], alone or somewhere inside arrays. *)
Fixpoint holds_toString (v : value) : bool :=
  match v with
  | VArr xs =>
      (fix any (l : list value) : bool :=
         match l with
         | [] => false
         | x :: rest => holds_toString x || any rest
         end) xs
  | VObj props =>
      match own props "toString" with
      | Some _ => true
      | None => false
      end
  | _ => false
  end.

(** The prompt, or the content of an entry of the history array, holds such
    an object. *)
Definition unconvertible_body (body : value) : bool :=
  holds_toString (opt_get body "prompt")
  || match opt_get body "history" with
     | VArr entries => existsb (fun m => holds_toString (opt_get m "content")) entries
     | _ => false
     end.

(** [String] on an element of an array being joined, and the join. *)
Definition String_elem (depth : nat) (x : value) : outcome string :=
  match x with
  | VUndefined | VNull => Ok ""
  | _ => String_from (S depth) x
  end.

Definition join_elems (depth : nat) : list value -> outcome string :=
  fix join (l : list value) : outcome string :=
    match l with
    | [] => Ok ""
    | [x] => String_elem depth x
    | x :: rest =>
        obind (String_elem depth x) (fun a =>
        obind (join rest) (fun b => Ok (a ++ "," ++ b)))
    end.

Definition all_coercible (depth : nat) : list value -> bool :=
  fix all (l : list value) : bool :=
    match l with
    | [] => true
    | x :: rest => coercible_from (S depth) x && all rest
    end.

(** Either [String v] returns and [v] is coercible, or it throws and [v]
    is not. *)
Definition coerces (depth : nat) (v : value) : Prop :=
  (coercible_from depth v = true /\ exists s, String_from depth v = Ok s)
  \/ (coercible_from depth v = false /\ exists e, String_from depth v = Throw e).

(** "content is coerced to a string and defaulted to empty if absent" *)
Definition content_text (m : value) : string :=
  match String_ (nullish_or (opt_get m "content") (VStr "")) with
  | Ok c => c
  | Throw _ => ""
  end.

(** "absent prompt defaults to an empty string (coerced via string
    conversion of the raw value)" *)
Definition prompt_text (body : value) : string :=
  match String_ (nullish_or (opt_get body "prompt") (VStr "")) with
  | Ok p => p
  | Throw _ => ""
  end.

(** "entries whose trimmed content is empty are discarded entirely" *)
Fixpoint survivors (entries : list value) : list Msg.t :=
  match entries with
  | [] => []
  | m :: rest =>
      if String.eqb (trim (content_text m)) "" then survivors rest
      else Msg.mk (forced_role m) (content_text m) :: survivors rest
  end.

(** The token a line of the event stream carries: the line, trimmed, begins
    with [data: ], the remainder is not [[DONE]], parses as JSON to a value
    other than [null], and that value has a truthy [token], taken as text. *)
Definition line_token (line : string) : option string :=
  let trimmed := trim line in
  if startsWith trimmed "data: " then
    let payload := slice 6 trimmed in
    if String.eqb payload "[DONE]" then None
    else
      match JSON_parse payload with
      | Ok VNull | Ok VUndefined => None
      | Ok obj =>
          if truthy (get obj "token") then
            match String_ (get obj "token") with
            | Ok text => Some text
            | Throw _ => None
            end
          else None
      | Throw _ => None
      end
  else None.

Fixpoint tokens_of_lines (lines : list string) : list string :=
  match lines with
  | [] => []
  | line :: rest =>
      match line_token line with
      | Some t => t :: tokens_of_lines rest
      | None => tokens_of_lines rest
      end
  end.

(** The tokens received over a whole response body, in receipt order. *)
Fixpoint tokens_of (r : Page.reader) : list string :=
  match r with
  | Page.ReadChunk chunk rest =>
      (tokens_of_lines (split_lines chunk) ++ tokens_of rest)%list
  | _ => []
  end.

End WithEngine.

(** How the reads of a response body end. *)
Fixpoint ending (r : Page.reader) : outcome unit :=
  match r with
  | Page.ReadDone => Ok tt
  | Page.ReadThrows e => Throw e
  | Page.ReadChunk _ rest => ending rest
  end.

(** The first [k] reads of a body, then the end. *)
Fixpoint take (k : nat) (r : Page.reader) : Page.reader :=
  match k, r with
  | S k', Page.ReadChunk chunk rest => Page.ReadChunk chunk (take k' rest)
  | _, _ => Page.ReadDone
  end.

(** The accumulator after the tokens [ts] were appended in order. *)
Definition text_of (ts : list string) : string :=
  fold_right String.append "" ts.



End Spec.

(** An engine for the worked examples, which contain no number: it prints
    every number as the empty string, names its [TypeError]s by their kind,
    and parses the payloads [{"token":"..."}] whose text needs no escape. *)
Module Examples.
Import JS.

Definition plain (c : ascii) : bool :=
  let n := nat_of_ascii c in
  ((32 <=? n) && negb (n =? 34) && negb (n =? 92) && (n <? 127))%nat.

Fixpoint text_until_close (s : string) : option string :=
  match s with
  | EmptyString => None
  | String c t =>
      if Ascii.eqb c DQUOTE then
        (if String.eqb t "}" then Some "" else None)
      else if plain c then
        match text_until_close t with
        | Some r => Some (String c r)
        | None => None
        end
      else None
  end.

Definition token_open : string := "{" ++ dq ++ "token" ++ dq ++ ":" ++ dq.

Definition parse_token_object (s : string) : outcome value :=
  if startsWith s token_open then
    match text_until_close (slice (String.length token_open) s) with
    | Some t => Ok (VObj [("token", VStr t)])
    | None => Throw (Exn (Some "SyntaxError"))
    end
  else Throw (Exn (Some "SyntaxError")).

Definition engine : Engine := {|
  Number_toString := fun _ => "";
  TypeError := fun k =>
    Exn (Some match k with
              | NotAFunction => "not a function"
              | NotPrimitive => "Cannot convert object to primitive value"
              | NullProperty => "Cannot read properties of null"
              | ControllerClosed => "Invalid state: Controller is already closed"
              end);
  JSON_parse := parse_token_object;
  String_depth := 1000;
  RangeError := Exn (Some "Maximum call stack size exceeded")
|}.

(** A backend that answers with the text [Hello there], and streams the
    fragments [Hel] and [lo]. *)
Definition hello_result : Gemini.Reply.result :=
  Gemini.Reply.mk_result (Some (Gemini.Reply.mk_response (Some
    [Gemini.Reply.mk_candidate (Some (Gemini.Reply.mk_content (Some
       [Gemini.Reply.mk_part (Some "Hello there")])))]))).

Definition hello_stream : Gemini.stream :=
  Gemini.StreamChunk (Ok "Hel") (Gemini.StreamChunk (Ok "lo") Gemini.StreamEnd).

Definition hello_backend : Gemini.backend := {|
  Gemini.generateContent := fun _ => Ok hello_result;
  Gemini.generateContentStream := fun _ => Ok hello_stream
|}.

(** A body with no prompt, whose history has an entry with an unknown role,
    an entry with blank content and an assistant entry. *)
Definition sample_body : value :=
  VObj [("history",
         VArr [VObj [("role", VStr "bogus"); ("content", VStr "hi")];
               VObj [("role", VStr "user"); ("content", VStr "   ")];
               VObj [("role", VStr "assistant"); ("content", VStr "Hello")]])].

(** The same history, with the prompt [What is AISoc?]. *)
Definition asking_body : value :=
  VObj [("history",
         VArr [VObj [("role", VStr "bogus"); ("content", VStr "hi")];
               VObj [("role", VStr "user"); ("content", VStr "   ")];
               VObj [("role", VStr "assistant"); ("content", VStr "Hello")]]);
        ("prompt", VStr "What is AISoc?")].

(** [{"history":"hello","prompt":"hi"}]: the history is not an array. *)
Definition string_history_body : value :=
  VObj [("history", VStr "hello"); ("prompt", VStr "hi")].

(** [{"history":[{"role":"user","content":{"toString":null}}],"prompt":"hi"}]:
    a content that [String] cannot convert. *)
Definition toString_body : value :=
  VObj [("history",
         VArr [VObj [("role", VStr "user");
                     ("content", VObj [("toString", VNull)])]]);
        ("prompt", VStr "hi")].

(** Networks for the page: one whose calls reject, one whose calls answer
    with a non-success status, one whose stream answers without a body, and
    one that streams the tokens [A], [B], [C] as the streaming handler
    frames them. *)
Definition rejecting_network : Page.network := {|
  Page.fetch_chat := fun _ => Throw (Exn (Some "Failed to fetch"));
  Page.fetch_stream := fun _ => Throw (Exn (Some "Failed to fetch"))
|}.

Definition failing_network : Page.network := {|
  Page.fetch_chat := fun _ =>
    Ok (Page.mk_chat_response false
          (Ok (Page.mk_reply_data None (Some "Server error"))));
  Page.fetch_stream := fun _ =>
    Ok (Page.mk_stream_response false (Some Page.ReadDone))
|}.

Definition bodiless_network : Page.network := {|
  Page.fetch_chat := fun _ =>
    Ok (Page.mk_chat_response true (Ok (Page.mk_reply_data (Some "hi") None)));
  Page.fetch_stream := fun _ => Ok (Page.mk_stream_response true None)
|}.

Definition abc_body : Page.reader :=
  Page.ReadChunk ("data: {" ++ dq ++ "token" ++ dq ++ ":" ++ dq ++ "A" ++ dq
                  ++ "}" ++ nl ++ nl)
    (Page.ReadChunk ("data: {" ++ dq ++ "token" ++ dq ++ ":" ++ dq ++ "B" ++ dq
                     ++ "}" ++ nl ++ nl)
       (Page.ReadChunk ("data: {" ++ dq ++ "token" ++ dq ++ ":" ++ dq ++ "C"
                        ++ dq ++ "}" ++ nl ++ nl ++ "data: [DONE]" ++ nl ++ nl)
          Page.ReadDone)).

(** The record of the token [A], cut in two by the connection. *)
Definition split_body : Page.reader :=
  Page.ReadChunk ("data: {" ++ dq ++ "tok")
    (Page.ReadChunk ("en" ++ dq ++ ":" ++ dq ++ "A" ++ dq ++ "}" ++ nl ++ nl
                     ++ "data: [DONE]" ++ nl ++ nl)
       Page.ReadDone).

(** The page as first rendered, with [  what is AI?  ] typed in; the same
    with streaming switched off. *)
Definition typed : Page.ui :=
  Page.mk_ui (Page.messages Page.initial) "  what is AI?  " true false.

Definition typed_plain : Page.ui :=
  Page.mk_ui (Page.messages Page.initial) "  what is AI?  " false false.

(** [{"messages":[{"role":"user","content":"hi"}],"system_prompt":""}] *)
Definition empty_system_prompt : LocalRoute.ChatRequest :=
  LocalRoute.mk_ChatRequest [LocalRoute.Message.mk "user" "hi"] (Some "") None None.

Definition with_key : Http.env := {| Http.GOOGLE_API_KEY := Some "secret" |}.
Definition without_key : Http.env := {| Http.GOOGLE_API_KEY := None |}.

End Examples.

(* ================================================================== *)
(** * [src/app/page.tsx]: the handlers wired to the view               *)
(* ================================================================== *)

Module PageView.
Import JS Page.

(** [onClick={() => setUseStreaming((v) => !v)}] *)
Definition toggle : St ui unit := setUseStreaming negb.

(** [onChange={(e) => setInput(e.target.value)}] *)
Definition onChange (v : string) : St ui unit := setInput v.

(** [disabled={isLoading || input.trim() === ""}] *)
Definition send_disabled (s : ui) : bool :=
  isLoading s || String.eqb (trim (input s)) "".

(** [{messages.length === 0 && <EmptyState />}] *)
Definition show_empty_state (s : ui) : bool :=
  (List.length (messages s) =? 0)%nat.

(** [{isLoading && <TypingIndicator />}] *)
Definition show_typing (s : ui) : bool := isLoading s.

(** [Bubble]: [const isUser = props.role === "user"], and the label of the
    avatar drawn beside the bubble. *)
Definition isUser (role : string) : bool := String.eqb role "user".

Definition avatar_label (role : string) : string :=
  if isUser role then "You" else "AI".

(** The request a submission from state [s] posts: the messages held
    before the send, and the trimmed input. *)
Definition request_of (s : ui) : payload :=
  mk_payload (messages s) (trim (input s)).

(** The text shown for a one-shot answer: the reply, [...] when the body
    has none, the fallback when the call or the parsing of its body fails. *)
Definition answer_text (r : outcome chat_response) : string :=
  match r with
  | Ok res =>
      if chat_ok res then
        match chat_json res with
        | Ok data => match reply data with Some t => t | None => "..." end
        | Throw _ => fallback
        end
      else fallback
  | Throw _ => fallback
  end.

(** A state between submissions, as the first render leaves it: no request
    in flight, and the greeting first among the messages. *)
Definition settled (s : ui) : Prop :=
  isLoading s = false
  /\ exists rest, messages s = Msg.mk "assistant" greeting :: rest.

(** What the user can do, each send with what the network does with it. *)
Inductive event : Type :=
| Change (v : string)
| Toggle
| Click (net : network)
| KeyDown (key : string) (shiftKey : bool) (net : network).

Section WithEngine.
Context {E : Engine}.

(** [onKeyDown]: [if (e.key === "Enter" && !e.shiftKey) { e.preventDefault(); onSend(); }] *)
Definition onKeyDown (key : string) (shiftKey : bool) (net : network)
  : St ui unit :=
  if String.eqb key "Enter" && negb shiftKey then onSend net else ret tt.

Definition handle (ev : event) : St ui unit :=
  match ev with
  | Change v => onChange v
  | Toggle => toggle
  | Click net => onSend net
  | KeyDown key shiftKey net => onKeyDown key shiftKey net
  end.

(** The state after a sequence of events, each handled to its end before
    the next one arrives. *)
Definition run (events : list event) (s : ui) : ui :=
  fold_left (fun s ev => snd (handle ev s)) events s.

End WithEngine.
End PageView.

(* ================================================================== *)
(** * The page and the handlers, put end to end                        *)
(* ================================================================== *)

(** What travels between the page and a handler: the body the page posts,
    [JSON.stringify(payload)], as [await req.json()] reads it back, and the
    response of a handler as [fetch] hands it to the page.  The connection
    is taken at its simplest: [deliver] hands each chunk enqueued on the
    stream to the page as one read.  The sources do not promise this: the
    page keeps no buffer between reads, so what is proved through [deliver]
    is proved of the connections that do not split a record. *)
Module Wire.
Import JS.

Definition msg_value (m : Page.Msg.t) : value :=
  VObj [("role", VStr (Page.Msg.role m)); ("content", VStr (Page.Msg.content m))].

Definition payload_body (p : Page.payload) : value :=
  VObj [("history", VArr (map msg_value (Page.history p)));
        ("prompt", VStr (Page.prompt p))].

Fixpoint deliver (chunks : list string) : Page.reader :=
  match chunks with
  | [] => Page.ReadDone
  | chunk :: rest => Page.ReadChunk chunk (deliver rest)
  end.

(** A message of the page as the handlers sanitize it. *)
Definition as_history (m : Page.Msg.t) : Shared.Msg.t :=
  Shared.Msg.mk
    (if String.eqb (Page.Msg.role m) "assistant" then "assistant" else "user")
    (Page.Msg.content m).

(** No line feed among the bytes of [s]. *)
Fixpoint no_LF (s : string) : bool :=
  match s with
  | EmptyString => true
  | String c t => negb (Ascii.eqb c LF) && no_LF t
  end.

(** [res.ok]: a status from 200 to 299. *)
Definition ok_status (status : nat) : bool :=
  ((200 <=? status) && (status <=? 299))%nat.

(** [data.reply] and [data.error] of a JSON body, when they are strings. *)
Definition string_field (v : value) (k : string) : option string :=
  match get v k with
  | VStr s => Some s
  | _ => None
  end.

Section WithEngine.
Context {E : Engine}.

(** [JSON.parse] reads back what [JSON.stringify] wrote for [{ k: s }]. *)
Definition parses_back (k s : string) : Prop :=
  JSON_parse (JSON_stringify_field k s) = Ok (VObj [(k, VStr s)]).

(** [fetch("/api/chat", ...)] answered by the one-shot handler. *)
Definition fetch_chat_from (e : Http.env) (b : Gemini.backend)
           (p : Page.payload) : outcome Page.chat_response :=
  match fst (ChatRoute.POST e {| Http.json := Ok (payload_body p) |} b) with
  | Ok r =>
      Ok (Page.mk_chat_response
            (ok_status (Http.status r))
            (match Http.body_of r with
             | Http.JsonBody v =>
                 Ok (Page.mk_reply_data (string_field v "reply")
                                        (string_field v "error"))
             | _ => Throw (Exn (Some "SyntaxError"))
             end))
  | Throw err => Throw err
  end.

(** [fetch("/api/chat/stream", ...)] answered by the streaming handler. *)
Definition fetch_stream_from (e : Http.env) (b : Gemini.backend)
           (p : Page.payload) : outcome Page.stream_response :=
  match fst (StreamRoute.POST e {| Http.json := Ok (payload_body p) |} b) with
  | Ok r =>
      Ok (Page.mk_stream_response
            (ok_status (Http.status r))
            (match Http.body_of r with
             | Http.StreamBody _ c => Some (deliver (Http.queue c))
             | Http.TextBody t => Some (deliver [t])
             | Http.JsonBody _ => None   (* never the streaming handler's *)
             end))
  | Throw err => Throw err
  end.

(** The network of a page served by the two handlers. *)
Definition served (e : Http.env) (b : Gemini.backend) : Page.network := {|
  Page.fetch_chat := fetch_chat_from e b;
  Page.fetch_stream := fetch_stream_from e b
|}.

End WithEngine.
End Wire.

(** More material for worked examples. *)
Module MoreExamples.
Import JS.



(** A network whose stream calls answer with a body that ends at once. *)
Definition empty_stream_network : Page.network := {|
  Page.fetch_chat := fun _ => Throw (Exn (Some "Failed to fetch"));
  Page.fetch_stream := fun _ =>
    Ok (Page.mk_stream_response true (Some Page.ReadDone))
|}.

(** A network whose one-shot calls answer, and whose stream calls reject. *)
Definition chat_only_network : Page.network := {|
  Page.fetch_chat := fun _ =>
    Ok (Page.mk_chat_response true (Ok (Page.mk_reply_data (Some "hi") None)));
  Page.fetch_stream := fun _ => Throw (Exn (Some "Failed to fetch"))
|}.

(** A backend whose calls fail, with and without a message. *)
Definition failing_backend (err : exn) : Gemini.backend := {|
  Gemini.generateContent := fun _ => Throw err;
  Gemini.generateContentStream := fun _ => Throw err
|}.

Definition quota : exn := Exn (Some "quota exceeded").

End MoreExamples.

(* ================================================================== *)
(** * Properties of the two route handlers                             *)
(* ================================================================== *)

Section RouteProperties.
Import JS Gemini Http Shared Spec.
Context {E : Engine}.

(** ** Strings *)

Lemma length_zero_eqb (s : string) :
  (String.length s =? 0)%nat = String.eqb s "".
Proof. destruct s; reflexivity. Qed.

Lemma append_assoc (a b c : string) : (a ++ b) ++ c = a ++ (b ++ c).
Proof. induction a as [|x a IH]; cbn; [reflexivity|now rewrite IH]. Qed.

Lemma append_nil_r (a : string) : a ++ "" = a.
Proof. induction a as [|x a IH]; cbn; [reflexivity|now rewrite IH]. Qed.

Lemma nonblank_trim (s : string) :
  nonblank s = negb (String.eqb (trim s) "").
Proof. unfold nonblank. now rewrite length_zero_eqb. Qed.

(** ** [String] succeeds exactly on the coercible values *)

Lemma String_from_arr (d : nat) (l : list value) :
  String_from d (VArr l)
  = if (String_depth <=? d)%nat then Throw RangeError else join_elems d l.
Proof. reflexivity. Qed.

Lemma coercible_from_arr (d : nat) (l : list value) :
  coercible_from d (VArr l) = (d <? String_depth)%nat && all_coercible d l.
Proof. reflexivity. Qed.

Lemma join_elems_more (d : nat) (x y : value) (rest : list value) :
  join_elems d (x :: y :: rest)
  = obind (String_elem d x) (fun a =>
    obind (join_elems d (y :: rest)) (fun b => Ok (a ++ "," ++ b))).
Proof. reflexivity. Qed.

Lemma coerces_elem (d : nat) (x : value) :
  coerces (S d) x ->
  (coercible_from (S d) x = true /\ exists s, String_elem d x = Ok s)
  \/ (coercible_from (S d) x = false /\ exists e, String_elem d x = Throw e).
Proof.
  intros H.
  destruct x; try exact H; left; (split; [reflexivity|now exists ""]).
Qed.

Lemma coerces_join (d : nat) (l : list value) :
  Forall (coerces (S d)) l ->
  (all_coercible d l = true /\ exists s, join_elems d l = Ok s)
  \/ (all_coercible d l = false /\ exists e, join_elems d l = Throw e).
Proof.
  induction 1 as [|x rest Hx Hrest IH].
  - left. split; [reflexivity|]. now exists "".
  - apply coerces_elem in Hx.
    change (all_coercible d (x :: rest))
      with (coercible_from (S d) x && all_coercible d rest).
    destruct rest as [|y rest].
    + change (join_elems d [x]) with (String_elem d x).
      change (all_coercible d []) with true. rewrite andb_true_r.
      exact Hx.
    + rewrite join_elems_more.
      destruct Hx as [[Hc [a Ha]]|[Hc [e He]]]; rewrite Hc.
      * rewrite Ha. cbn [obind andb].
        destruct IH as [[Hc' [b Hb]]|[Hc' [e He]]]; rewrite Hc'.
        -- left. split; [reflexivity|]. rewrite Hb. cbn [obind]. eauto.
        -- right. split; [reflexivity|]. rewrite He. cbn [obind]. eauto.
      * right. split; [reflexivity|]. rewrite He. cbn [obind]. eauto.
Qed.

Lemma coerces_arr (d : nat) (l : list value) :
  Forall (coerces (S d)) l -> coerces d (VArr l).
Proof.
  intros H. unfold coerces. rewrite String_from_arr, coercible_from_arr.
  rewrite Nat.ltb_antisym.
  destruct (String_depth <=? d)%nat; cbn [negb andb].
  - right. split; [reflexivity|]. now exists RangeError.
  - now apply coerces_join.
Qed.

Lemma String_coercible : forall (v : value) (d : nat), coerces d v.
Proof.
  fix IH 1. intros [ | | b | n | s | xs | props] d.
  - left. split; [reflexivity|]. now exists "undefined".
  - left. split; [reflexivity|]. now exists "null".
  - left. split; [reflexivity|]. destruct b; [now exists "true"|now exists "false"].
  - left. split; [reflexivity|]. now exists (Number_toString n).
  - left. split; [reflexivity|]. now exists s.
  - apply coerces_arr.
    revert xs. fix IHl 1. intros [|x rest]; constructor; [apply IH|apply IHl].
  - unfold coerces. cbn [coercible_from String_from].
    destruct (own props "toString"); [right|left]; split; try reflexivity.
    + now exists (TypeError NotPrimitive).
    + now exists "[object Object]".
Qed.

Lemma String_of_coercible (v : value) :
  coercible v = true -> exists s, String_ v = Ok s.
Proof.
  intros H. destruct (String_coercible v 0) as [[_ Hs]|[Hc _]];
    [exact Hs|unfold coercible in H; congruence].
Qed.

Lemma String_of_not_coercible (v : value) :
  coercible v = false -> exists e, String_ v = Throw e.
Proof.
  intros H. destruct (String_coercible v 0) as [[Hc _]|[_ Hs]];
    [unfold coercible in H; congruence|exact Hs].
Qed.

(** ** The history *)

Lemma narrow_role_forced (m : value) :
  (if is_str (opt_get m "role") "user" || is_str (opt_get m "role") "assistant"
   then match get m "role" with VStr r => r | _ => "user" end
   else "user") = forced_role m.
Proof.
  unfold forced_role.
  destruct m; try reflexivity.
  cbn [opt_get].
  destruct (get (VObj props) "role") as [| | | |s| |]; try reflexivity.
  cbn [is_str].
  destruct (String.eqb_spec s "user") as [->|Hu]; [reflexivity|].
  destruct (String.eqb_spec s "assistant") as [->|Ha]; reflexivity.
Qed.

Lemma narrow_coercible (m : value) :
  coercible (nullish_or (opt_get m "content") (VStr "")) = true ->
  narrow m = Ok (Msg.mk (forced_role m) (content_text m)).
Proof.
  intros Hc. apply String_of_coercible in Hc as [c Hc].
  unfold narrow, content_text. rewrite Hc. cbn [obind].
  now rewrite narrow_role_forced.
Qed.

Lemma narrow_not_coercible (m : value) :
  coercible (nullish_or (opt_get m "content") (VStr "")) = false ->
  exists e, narrow m = Throw e.
Proof.
  intros Hc. apply String_of_not_coercible in Hc as [e He].
  exists e. unfold narrow. now rewrite He.
Qed.

Lemma forced_role_valid (m : value) :
  forced_role m = "user" \/ forced_role m = "assistant".
Proof. unfold forced_role. destruct (is_str _ _); auto. Qed.

Lemma survivors_valid (entries : list value) :
  Forall valid_role (survivors entries).
Proof.
  induction entries as [|m rest IH]; cbn [survivors]; [constructor|].
  destruct (String.eqb _ ""); [exact IH|].
  constructor; [apply forced_role_valid|exact IH].
Qed.

Lemma map_narrow_accepted (entries : list value) :
  forallb (fun m => coercible (nullish_or (opt_get m "content") (VStr "")))
          entries = true ->
  omap (filter (fun m => nonblank (Msg.content m))) (map_outcome narrow entries)
  = Ok (survivors entries).
Proof.
  induction entries as [|m rest IH]; [reflexivity|].
  cbn [forallb]. intros H. apply andb_true_iff in H as [Hm Hrest].
  specialize (IH Hrest).
  cbn [map_outcome survivors]. rewrite (narrow_coercible _ Hm). cbn [obind].
  unfold omap in *.
  destruct (map_outcome narrow rest) as [msgs|e]; cbn [obind] in *;
    [|discriminate].
  inversion IH as [IH']. cbn [filter Msg.content].
  rewrite nonblank_trim. now destruct (String.eqb (trim (content_text m)) "").
Qed.

Lemma map_narrow_rejected (entries : list value) :
  forallb (fun m => coercible (nullish_or (opt_get m "content") (VStr "")))
          entries = false ->
  exists e, map_outcome narrow entries = Throw e.
Proof.
  induction entries as [|m rest IH]; [discriminate|].
  cbn [forallb map_outcome]. intros H.
  destruct (coercible (nullish_or (opt_get m "content") (VStr ""))) eqn:Hm.
  - rewrite (narrow_coercible _ Hm). cbn [obind].
    destruct (IH H) as [e He]. exists e. now rewrite He.
  - destruct (narrow_not_coercible _ Hm) as [e He]. exists e. now rewrite He.
Qed.

Lemma history_of_accepted (body : value) :
  history_accepted body = true ->
  history_of body = Ok (survivors (entries_of body)).
Proof.
  unfold history_accepted, history_of, entries_of, array_map, historyUnsafe.
  destruct (opt_get body "history"); try discriminate; try reflexivity.
  apply map_narrow_accepted.
Qed.

Lemma history_of_rejected (body : value) :
  history_accepted body = false -> exists err, history_of body = Throw err.
Proof.
  unfold history_accepted, history_of, array_map, omap, historyUnsafe.
  destruct (opt_get body "history"); try discriminate;
    try (intros _; eexists; reflexivity).
  intros H. destruct (map_narrow_rejected _ H) as [e He].
  exists e. cbn [nullish_or]. now rewrite He.
Qed.

Lemma prompt_of_accepted (body : value) :
  prompt_accepted body = true -> prompt_of body = Ok (prompt_text body).
Proof.
  unfold prompt_accepted, prompt_of, prompt_text. intros H.
  apply String_of_coercible in H as [p Hp]. now rewrite Hp.
Qed.

Lemma prompt_of_rejected (body : value) :
  prompt_accepted body = false -> exists e, prompt_of body = Throw e.
Proof.
  unfold prompt_accepted, prompt_of. apply String_of_not_coercible.
Qed.

(** ** The contents array *)

Lemma push_msg_turn (m : Msg.t) (acc : list Content.t) :
  valid_role m -> push_msg acc m = (acc ++ [turn_of m])%list.
Proof.
  intros [H|H]; unfold push_msg, push, turn_of; now rewrite H.
Qed.

Lemma fold_push_msg (history : list Msg.t) :
  Forall valid_role history ->
  forall acc, fold_left push_msg history acc = (acc ++ map turn_of history)%list.
Proof.
  induction 1 as [|m history Hm _ IH]; intros acc; cbn [fold_left map].
  - now rewrite app_nil_r.
  - rewrite IH, (push_msg_turn _ _ Hm), <- app_assoc. reflexivity.
Qed.

Lemma preamble_is_persona : SYSTEM_PREAMBLE = persona_text.
Proof. reflexivity. Qed.

Lemma contents_of_expected (history : list Msg.t) (prompt : string) :
  Forall valid_role history ->
  contents_of history prompt = expected_contents history prompt.
Proof.
  intros H. unfold contents_of, expected_contents, push, user_turn.
  now rewrite (fold_push_msg _ H), preamble_is_persona.
Qed.

Lemma build_contents_accepted (body : value) :
  accepted body = true ->
  build_contents body
  = Ok (expected_contents (survivors (entries_of body)) (prompt_text body)).
Proof.
  unfold accepted. intros H. apply andb_true_iff in H as [Hp Hh].
  unfold build_contents.
  rewrite (prompt_of_accepted _ Hp), (history_of_accepted _ Hh). cbn [obind].
  now rewrite (contents_of_expected _ _ (survivors_valid _)).
Qed.

Lemma build_contents_rejected (body : value) :
  accepted body = false -> exists err, build_contents body = Throw err.
Proof.
  unfold accepted, build_contents. intros H.
  destruct (prompt_accepted body) eqn:Hp.
  - rewrite (prompt_of_accepted _ Hp). cbn [obind].
    destruct (history_of_rejected _ H) as [err Herr].
    rewrite Herr. eexists; reflexivity.
  - destruct (prompt_of_rejected _ Hp) as [e He]. rewrite He.
    eexists; reflexivity.
Qed.

(** ** The handlers around the backend call *)

Lemma chat_POST_reaches (e : env) (body : value) (b : backend)
      (contents : list Content.t) :
  key_missing e = false ->
  build_contents body = Ok contents ->
  ChatRoute.POST e {| json := Ok body |} b
  = (match generateContent b contents with
     | Ok result =>
         Ok (NextResponse_json
               (VObj [("reply", VStr (ChatRoute.reply_text result))]) 200)
     | Throw err =>
         Ok (NextResponse_json
               (VObj [("error", VStr (ChatRoute.message_or err "Server error"))])
               500)
     end,
     [CallGenerateContent contents]).
Proof.
  intros Hk Hc.
  unfold ChatRoute.POST, ChatRoute.POST_handler, try_catch, bind, lift, ret,
    ChatRoute.call_generateContent.
  cbn [json]. rewrite Hk, Hc. cbn [app].
  now destruct (generateContent b contents).
Qed.

Lemma stream_POST_reaches (e : env) (body : value) (b : backend)
      (contents : list Content.t) :
  key_missing e = false ->
  build_contents body = Ok contents ->
  StreamRoute.POST e {| json := Ok body |} b
  = (match generateContentStream b contents with
     | Ok s => Ok (StreamRoute.stream_response s)
     | Throw err =>
         Ok (NextResponse_text (StreamRoute.message_or err "Server error") 500)
     end,
     [CallGenerateContentStream contents]).
Proof.
  intros Hk Hc.
  unfold StreamRoute.POST, StreamRoute.POST_handler, try_catch, bind, lift, ret,
    StreamRoute.call_generateContentStream.
  cbn [json]. rewrite Hk, Hc. cbn [app].
  now destruct (generateContentStream b contents).
Qed.

Lemma chat_POST_stops (e : env) (body : value) (b : backend) (err : exn) :
  key_missing e = false ->
  build_contents body = Throw err ->
  ChatRoute.POST e {| json := Ok body |} b
  = (Ok (NextResponse_json
           (VObj [("error", VStr (ChatRoute.message_or err "Server error"))]) 500),
     []).
Proof.
  intros Hk Hc.
  unfold ChatRoute.POST, ChatRoute.POST_handler, try_catch, bind, lift, ret.
  cbn [json]. now rewrite Hk, Hc.
Qed.

Lemma stream_POST_stops (e : env) (body : value) (b : backend) (err : exn) :
  key_missing e = false ->
  build_contents body = Throw err ->
  StreamRoute.POST e {| json := Ok body |} b
  = (Ok (NextResponse_text (StreamRoute.message_or err "Server error") 500), []).
Proof.
  intros Hk Hc.
  unfold StreamRoute.POST, StreamRoute.POST_handler, try_catch, bind, lift, ret.
  cbn [json]. now rewrite Hk, Hc.
Qed.

Lemma reply_text_first (result : Reply.result) :
  ChatRoute.reply_text result
  = match first_text result with Some text => text | None => "..." end.
Proof.
  destruct result as [r].
  destruct r as [[cs]|]; [|reflexivity].
  destruct cs as [[|[c] cs]|]; try reflexivity.
  destruct c as [[ps]|]; [|reflexivity].
  destruct ps as [[|[t] ps]|]; try reflexivity.
  destruct t; reflexivity.
Qed.

Lemma survivors_app (before after : list value) :
  survivors (before ++ after) = (survivors before ++ survivors after)%list.
Proof.
  induction before as [|m before IH]; [reflexivity|].
  cbn [app survivors]. rewrite IH.
  now destruct (String.eqb (trim (content_text m)) "").
Qed.

(** ** The claims about the two handlers *)

(** C1. With the credential present, whenever either endpoint calls the
    backend it calls it once, and the contents of that call are: the persona
    instruction as one leading user turn; then the surviving sanitized
    history entries in order, a user entry as a user turn and an assistant
    entry as a model turn; then one final user turn holding the
    string-coerced prompt, which is the empty string when the body has no
    prompt.  The call is made for every body the coercions accept; for a
    body they reject, and for a body that does not parse, no contents are
    built and no call is made. *)
Theorem backend_contents_shape (e : env) (req : request) (b : backend) :
  key_missing e = false ->
  match json req with
  | Ok body =>
      if accepted body then
        snd (ChatRoute.POST e req b)
        = [CallGenerateContent
             (expected_contents (survivors (entries_of body)) (prompt_text body))]
        /\ snd (StreamRoute.POST e req b)
           = [CallGenerateContentStream
                (expected_contents (survivors (entries_of body))
                                   (prompt_text body))]
        /\ Forall valid_role (survivors (entries_of body))
        /\ (opt_get body "prompt" = VUndefined -> prompt_text body = "")
        /\ (forall s, opt_get body "prompt" = VStr s -> prompt_text body = s)
      else
        snd (ChatRoute.POST e req b) = []
        /\ snd (StreamRoute.POST e req b) = []
  | Throw _ =>
      snd (ChatRoute.POST e req b) = [] /\ snd (StreamRoute.POST e req b) = []
  end.
Proof.
  intros Hk. destruct req as [[body|err]]; cbn [json].
  - destruct (accepted body) eqn:Ha.
    + pose proof (build_contents_accepted _ Ha) as Hc.
      rewrite (chat_POST_reaches _ _ b _ Hk Hc), (stream_POST_reaches _ _ b _ Hk Hc).
      repeat split.
      * apply survivors_valid.
      * intros H. unfold prompt_text. now rewrite H.
      * intros s H. unfold prompt_text. now rewrite H.
    + destruct (build_contents_rejected _ Ha) as [thrown Hc].
      now rewrite (chat_POST_stops _ _ b _ Hk Hc), (stream_POST_stops _ _ b _ Hk Hc).
  - split; reflexivity.
Qed.

(** C2. Sanitization gives each history entry the role assistant when its
    role is exactly that string and user otherwise, and as content the
    string conversion of its raw content, the empty string when the content
    is absent; it then drops every entry whose trimmed content is empty, so
    that a dropped entry contributes no turn.  The sanitized history is
    thus the list of survivors of the entries, whenever the history is
    missing, [null] or an array whose contents all convert; otherwise the
    conversion throws and there is no sanitized history. *)
Theorem history_sanitized (body : value) :
  (if history_accepted body
   then history_of body = Ok (survivors (entries_of body))
   else exists thrown, history_of body = Throw thrown)
  /\ (forall m,
        narrow m
        = omap (Msg.mk (forced_role m))
               (String_ (nullish_or (opt_get m "content") (VStr ""))))
  /\ (forall before m after,
        trim (content_text m) = "" ->
        survivors (before ++ m :: after) = survivors (before ++ after)
        /\ map turn_of (survivors (before ++ m :: after))
           = map turn_of (survivors (before ++ after)))
  /\ (forall m rest,
        trim (content_text m) <> "" ->
        survivors (m :: rest)
        = Msg.mk (forced_role m) (content_text m) :: survivors rest)
  /\ (forall m, opt_get m "role" = VStr "assistant" -> forced_role m = "assistant")
  /\ (forall m, opt_get m "role" <> VStr "assistant" -> forced_role m = "user")
  /\ (forall m, opt_get m "content" = VUndefined -> content_text m = "")
  /\ (forall m s, opt_get m "content" = VStr s -> content_text m = s).
Proof.
  split.
  { destruct (history_accepted body) eqn:Ha;
      [now apply history_of_accepted|now apply history_of_rejected]. }
  split.
  { intros m. unfold narrow, omap. rewrite narrow_role_forced. reflexivity. }
  split.
  { intros before m after Hm.
    assert (H : survivors (before ++ m :: after) = survivors (before ++ after)).
    { rewrite !survivors_app. cbn [survivors]. now rewrite Hm. }
    split; [exact H|now rewrite H]. }
  split.
  { intros m rest Hm. cbn [survivors].
    now destruct (String.eqb_spec (trim (content_text m)) ""). }
  split.
  { intros m Hm. unfold forced_role. now rewrite Hm. }
  split.
  { intros m Hm. unfold forced_role.
    destruct (opt_get m "role") as [| | | |s| |]; try reflexivity.
    cbn [is_str]. destruct (String.eqb_spec s "assistant"); [congruence|reflexivity]. }
  split.
  { intros m Hm. unfold content_text. now rewrite Hm. }
  intros m s Hm. unfold content_text. now rewrite Hm.
Qed.

(** C4, as amended. With no [GOOGLE_API_KEY], a request whose body parses
    gets status 500 with the JSON body [{ error: "Missing GOOGLE_API_KEY" }]
    from the primary endpoint and status 500 with the plain text
    [Missing GOOGLE_API_KEY] from the streaming endpoint; a request whose
    body does not parse gets status 500 carrying the parse failure's message
    (or [Server error]); in every case no backend call is made. *)
Theorem missing_key_short_circuit (body : value) (err : exn) (b : backend) :
  ChatRoute.POST {| GOOGLE_API_KEY := None |} {| json := Ok body |} b
  = (Ok (NextResponse_json (VObj [("error", VStr "Missing GOOGLE_API_KEY")]) 500),
     [])
  /\ StreamRoute.POST {| GOOGLE_API_KEY := None |} {| json := Ok body |} b
     = (Ok (NextResponse_text "Missing GOOGLE_API_KEY" 500), [])
  /\ ChatRoute.POST {| GOOGLE_API_KEY := None |} {| json := Throw err |} b
     = (Ok (NextResponse_json
              (VObj [("error", VStr (ChatRoute.message_or err "Server error"))])
              500),
        [])
  /\ StreamRoute.POST {| GOOGLE_API_KEY := None |} {| json := Throw err |} b
     = (Ok (NextResponse_text (StreamRoute.message_or err "Server error") 500),
        []).
Proof. repeat split. Qed.

Lemma holds_toString_cons (x : value) (rest : list value) :
  holds_toString (VArr (x :: rest))
  = holds_toString x || holds_toString (VArr rest).
Proof. reflexivity. Qed.

Lemma all_coercible_cons (d : nat) (x : value) (rest : list value) :
  all_coercible d (x :: rest)
  = coercible_from (S d) x && all_coercible d rest.
Proof. reflexivity. Qed.

Lemma holds_toString_not_coercible :
  forall (v : value) (d : nat),
    holds_toString v = true -> coercible_from d v = false.
Proof.
  fix IH 1. intros [ | | b | n | s | xs | props] d H; try discriminate H.
  - rewrite coercible_from_arr.
    destruct (d <? String_depth)%nat; [|reflexivity]. cbn [andb].
    revert xs H. fix IHl 1. intros [|x rest] H; [discriminate H|].
    rewrite holds_toString_cons in H. rewrite all_coercible_cons.
    apply orb_true_iff in H as [H|H].
    + now rewrite (IH x (S d) H).
    + rewrite (IHl rest H). apply andb_false_r.
  - cbn [holds_toString coercible_from] in *.
    now destruct (own props "toString").
Qed.

Lemma holds_toString_nullish (v d : value) :
  holds_toString v = true -> nullish_or v d = v.
Proof. now destruct v. Qed.

Lemma plain_coercible (v : value) :
  plain v = true -> coercible (nullish_or v (VStr "")) = true.
Proof.
  destruct v; try reflexivity; try discriminate.
  cbn [plain nullish_or]. unfold coercible. cbn [coercible_from].
  now destruct (own props "toString").
Qed.

Lemma plain_body_accepted (body : value) :
  plain_body body = true -> accepted body = true.
Proof.
  unfold plain_body, accepted, prompt_accepted, history_accepted.
  intros H. apply andb_true_iff in H as [Hp Hh].
  rewrite (plain_coercible _ Hp). cbn [andb].
  destruct (opt_get body "history") as [| | | | |entries|];
    try reflexivity; try discriminate.
  rewrite forallb_forall in *. intros m Hm. apply plain_coercible. now apply Hh.
Qed.

Lemma history_not_array_rejected (body : value) :
  history_not_array body = true -> accepted body = false.
Proof.
  unfold history_not_array, accepted, history_accepted.
  destruct (opt_get body "history"); try discriminate;
    intros _; apply andb_false_r.
Qed.

Lemma unconvertible_body_rejected (body : value) :
  unconvertible_body body = true -> accepted body = false.
Proof.
  unfold unconvertible_body, accepted, prompt_accepted, history_accepted.
  intros H. apply orb_true_iff in H as [H|H].
  - unfold coercible.
    rewrite (holds_toString_nullish _ _ H), (holds_toString_not_coercible _ 0 H).
    reflexivity.
  - destruct (opt_get body "history") as [| | | | |entries|];
      try discriminate H.
    apply andb_false_iff. right.
    apply existsb_exists in H as [m [Hin Hm]].
    destruct (forallb _ entries) eqn:Hall; [|reflexivity].
    rewrite forallb_forall in Hall. specialize (Hall m Hin).
    unfold coercible in Hall.
    rewrite (holds_toString_nullish _ _ Hm),
      (holds_toString_not_coercible _ 0 Hm) in Hall.
    discriminate.
Qed.

(** C5, as amended. No validation step rejects a body.  With the credential
    present, a body made of plain fields ([history] missing, [null] or an
    array; the prompt and every entry's content missing, [null], a string,
    a number, a boolean or an object without an own [toString]) reaches the
    backend call on either endpoint, whatever else it holds.  A body whose
    [history] is present and neither [null] nor an array, or whose prompt
    or an entry's content is, or holds in an array, an object with an own
    [toString], makes a coercion throw before the backend call; the handler
    catches the failure, answers 500 with its message, and makes no backend
    call. *)
Theorem coercion_reaches_or_throws (e : env) (body : value) (b : backend) :
  key_missing e = false ->
  (plain_body body = true ->
   exists contents,
     build_contents body = Ok contents
     /\ snd (ChatRoute.POST e {| json := Ok body |} b)
        = [CallGenerateContent contents]
     /\ snd (StreamRoute.POST e {| json := Ok body |} b)
        = [CallGenerateContentStream contents])
  /\ (history_not_array body = true \/ unconvertible_body body = true ->
      exists thrown,
        build_contents body = Throw thrown
        /\ ChatRoute.POST e {| json := Ok body |} b
           = (Ok (NextResponse_json
                    (VObj [("error",
                            VStr (ChatRoute.message_or thrown "Server error"))])
                    500),
              [])
        /\ StreamRoute.POST e {| json := Ok body |} b
           = (Ok (NextResponse_text
                    (StreamRoute.message_or thrown "Server error") 500),
              [])).
Proof.
  intros Hk. split.
  - intros Hp. pose proof (build_contents_accepted _ (plain_body_accepted _ Hp)) as Hc.
    eexists. split; [exact Hc|].
    now rewrite (chat_POST_reaches _ _ b _ Hk Hc), (stream_POST_reaches _ _ b _ Hk Hc).
  - intros H.
    assert (Ha : accepted body = false).
    { destruct H as [H|H];
        [now apply history_not_array_rejected|now apply unconvertible_body_rejected]. }
    destruct (build_contents_rejected _ Ha) as [thrown Hc].
    exists thrown. split; [exact Hc|].
    now rewrite (chat_POST_stops _ _ b _ Hk Hc), (stream_POST_stops _ _ b _ Hk Hc).
Qed.

(** C6. When the backend call returns, the primary endpoint answers with
    status 200 and the body [{ reply: t }], where [t] is the text of the
    first part of the first candidate, and the placeholder [...] when the
    response, the candidates, the first candidate, its content, its parts,
    the first part or its text is missing. *)
Theorem reply_extraction (e : env) (body : value) (b : backend)
        (result : Reply.result) :
  key_missing e = false ->
  accepted body = true ->
  generateContent b
    (expected_contents (survivors (entries_of body)) (prompt_text body))
  = Ok result ->
  fst (ChatRoute.POST e {| json := Ok body |} b)
  = Ok (NextResponse_json
          (VObj [("reply",
                  VStr match first_text result with
                       | Some text => text
                       | None => "..."
                       end)])
          200).
Proof.
  intros Hk Ha Hr.
  rewrite (chat_POST_reaches _ _ b _ Hk (build_contents_accepted _ Ha)), Hr.
  cbn [fst]. now rewrite reply_text_first.
Qed.

End RouteProperties.

(** ** Worked examples for the two handlers *)

Lemma backend_contents_shape_witness :
  Http.key_missing Examples.with_key = false
  /\ snd (ChatRoute.POST (E := Examples.engine) Examples.with_key
            {| Http.json := JS.Ok Examples.asking_body |} Examples.hello_backend)
     = [Gemini.CallGenerateContent
          [Gemini.Content.mk "user" [Gemini.Part.mk Spec.persona_text];
           Gemini.Content.mk "user" [Gemini.Part.mk "hi"];
           Gemini.Content.mk "model" [Gemini.Part.mk "Hello"];
           Gemini.Content.mk "user" [Gemini.Part.mk "What is AISoc?"]]]
  /\ snd (StreamRoute.POST (E := Examples.engine) Examples.with_key
            {| Http.json := JS.Ok Examples.asking_body |} Examples.hello_backend)
     = [Gemini.CallGenerateContentStream
          [Gemini.Content.mk "user" [Gemini.Part.mk Spec.persona_text];
           Gemini.Content.mk "user" [Gemini.Part.mk "hi"];
           Gemini.Content.mk "model" [Gemini.Part.mk "Hello"];
           Gemini.Content.mk "user" [Gemini.Part.mk "What is AISoc?"]]].
Proof.
  split; [reflexivity|].
  pose proof (backend_contents_shape (E := Examples.engine)
                Examples.with_key
                {| Http.json := JS.Ok Examples.asking_body |}
                Examples.hello_backend eq_refl) as H.
  exact (conj (proj1 H) (proj1 (proj2 H))).
Defined.

(** The same handlers on the body without a prompt: the last turn is
    there, with empty text. *)
Example backend_contents_no_prompt :
  snd (ChatRoute.POST (E := Examples.engine) Examples.with_key
         {| Http.json := JS.Ok Examples.sample_body |} Examples.hello_backend)
  = [Gemini.CallGenerateContent
       [Gemini.Content.mk "user" [Gemini.Part.mk Spec.persona_text];
        Gemini.Content.mk "user" [Gemini.Part.mk "hi"];
        Gemini.Content.mk "model" [Gemini.Part.mk "Hello"];
        Gemini.Content.mk "user" [Gemini.Part.mk ""]]].
Proof. reflexivity. Qed.

Lemma history_sanitized_witness :
  Shared.history_of (E := Examples.engine) Examples.asking_body
  = JS.Ok [Shared.Msg.mk "user" "hi"; Shared.Msg.mk "assistant" "Hello"].
Proof.
  exact (proj1 (history_sanitized (E := Examples.engine) Examples.asking_body)).
Defined.

(** The entry with an unknown role becomes a user entry, the entry with
    blank content is dropped. *)
Example history_sanitized_sample :
  Shared.history_of (E := Examples.engine) Examples.sample_body
  = JS.Ok [Shared.Msg.mk "user" "hi"; Shared.Msg.mk "assistant" "Hello"].
Proof. reflexivity. Qed.

(** C4, as stated, fails: with no key, a request whose body does not parse
    is answered with the parse failure's message, not with
    [Missing GOOGLE_API_KEY]. *)
Lemma missing_key_unparsable_body :
  ChatRoute.POST (E := Examples.engine) Examples.without_key
    {| Http.json := JS.Throw (JS.Exn (Some "Unexpected end of JSON input")) |}
    Examples.hello_backend
  = (JS.Ok (Http.NextResponse_json
              (JS.VObj [("error", JS.VStr "Unexpected end of JSON input")]) 500),
     [])
  /\ Http.NextResponse_json
       (JS.VObj [("error", JS.VStr "Unexpected end of JSON input")]) 500
     <> Http.NextResponse_json
          (JS.VObj [("error", JS.VStr "Missing GOOGLE_API_KEY")]) 500.
Proof. split; [reflexivity|discriminate]. Qed.

(** C5, as stated, fails: a history that is not an array, and a content that
    [String] cannot convert, each throw before the backend call; the request
    is answered 500 and the backend is never called. *)
Lemma coercion_throws_before_backend :
  Shared.build_contents (E := Examples.engine) Examples.string_history_body
  = JS.Throw (JS.TypeError (Engine := Examples.engine) JS.NotAFunction)
  /\ snd (ChatRoute.POST (E := Examples.engine) Examples.with_key
            {| Http.json := JS.Ok Examples.string_history_body |}
            Examples.hello_backend) = []
  /\ Shared.build_contents (E := Examples.engine) Examples.toString_body
     = JS.Throw (JS.TypeError (Engine := Examples.engine) JS.NotPrimitive)
  /\ snd (StreamRoute.POST (E := Examples.engine) Examples.with_key
            {| Http.json := JS.Ok Examples.toString_body |}
            Examples.hello_backend) = [].
Proof. repeat split. Qed.

Lemma coercion_reaches_or_throws_witness :
  Http.key_missing Examples.with_key = false
  /\ Spec.plain_body Examples.asking_body = true
  /\ Spec.history_not_array Examples.string_history_body = true
  /\ Spec.unconvertible_body Examples.toString_body = true
  /\ (exists contents,
        snd (ChatRoute.POST (E := Examples.engine) Examples.with_key
               {| Http.json := JS.Ok Examples.asking_body |}
               Examples.hello_backend)
        = [Gemini.CallGenerateContent contents])
  /\ (exists thrown,
        StreamRoute.POST (E := Examples.engine) Examples.with_key
          {| Http.json := JS.Ok Examples.string_history_body |}
          Examples.hello_backend
        = (JS.Ok (Http.NextResponse_text
                    (StreamRoute.message_or thrown "Server error") 500),
           []))
  /\ (exists thrown,
        ChatRoute.POST (E := Examples.engine) Examples.with_key
          {| Http.json := JS.Ok Examples.toString_body |}
          Examples.hello_backend
        = (JS.Ok (Http.NextResponse_json
                    (JS.VObj [("error",
                               JS.VStr (ChatRoute.message_or thrown
                                          "Server error"))])
                    500),
           [])).
Proof.
  split; [reflexivity|]. split; [reflexivity|]. split; [reflexivity|].
  split; [reflexivity|].
  split.
  { destruct (proj1 (coercion_reaches_or_throws (E := Examples.engine)
                       Examples.with_key Examples.asking_body
                       Examples.hello_backend eq_refl) eq_refl)
      as (contents & _ & Hc & _).
    exists contents. exact Hc. }
  split.
  { destruct (proj2 (coercion_reaches_or_throws (E := Examples.engine)
                       Examples.with_key Examples.string_history_body
                       Examples.hello_backend eq_refl) (or_introl eq_refl))
      as (thrown & _ & _ & Hs).
    exists thrown. exact Hs. }
  destruct (proj2 (coercion_reaches_or_throws (E := Examples.engine)
                     Examples.with_key Examples.toString_body
                     Examples.hello_backend eq_refl) (or_intror eq_refl))
    as (thrown & _ & Hc & _).
  exists thrown. exact Hc.
Defined.

Lemma reply_extraction_witness :
  Http.key_missing Examples.with_key = false
  /\ Spec.accepted (E := Examples.engine) Examples.sample_body = true
  /\ fst (ChatRoute.POST (E := Examples.engine) Examples.with_key
            {| Http.json := JS.Ok Examples.sample_body |} Examples.hello_backend)
     = JS.Ok (Http.NextResponse_json
                (JS.VObj [("reply", JS.VStr "Hello there")]) 200).
Proof.
  split; [reflexivity|]. split; [reflexivity|].
  exact (reply_extraction (E := Examples.engine)
           Examples.with_key Examples.sample_body Examples.hello_backend
           Examples.hello_result eq_refl eq_refl eq_refl).
Defined.

(** A response with no extractable text is answered with the placeholder. *)
Example reply_placeholder :
  ChatRoute.reply_text (Gemini.Reply.mk_result None) = "..."
  /\ ChatRoute.reply_text
       (Gemini.Reply.mk_result (Some (Gemini.Reply.mk_response (Some [])))) = "..."
  /\ ChatRoute.reply_text
       (Gemini.Reply.mk_result (Some (Gemini.Reply.mk_response (Some
          [Gemini.Reply.mk_candidate (Some (Gemini.Reply.mk_content (Some
             [Gemini.Reply.mk_part None])))])))) = "...".
Proof. repeat split. Qed.

(* ================================================================== *)
(** * Properties of the stream body                                    *)
(* ================================================================== *)

Section StreamProperties.
Import JS Gemini Http Shared Spec.
Context {E : Engine}.

Lemma send_token (text : string) :
  StreamRoute.send (JSON_stringify_field "token" text)
  = StreamRoute.enqueue (StreamRoute.token_record text).
Proof. reflexivity. Qed.

(** The loop, from any controller that is still open: it enqueues one record
    per non-empty fragment that arrives, and stops at the first failure. *)
Lemma for_await_open (s : stream) :
  forall q : list string,
    StreamRoute.for_await s (mk_controller q false)
    = (match failure s with
       | None => Ok tt
       | Some e => Throw e
       end,
       mk_controller
         (q ++ map StreamRoute.token_record (filter nonempty (arrived s)))%list
         false).
Proof.
  induction s as [|e|[text|e] rest IH]; intros q;
    cbn [StreamRoute.for_await failure arrived filter map].
  - now rewrite app_nil_r.
  - now rewrite app_nil_r.
  - unfold bind, lift. rewrite send_token. unfold nonempty.
    destruct (String.eqb text ""); cbn [negb].
    + unfold ret. apply IH.
    + unfold StreamRoute.enqueue. cbn [closed queue].
      rewrite IH. cbn [map]. now rewrite <- app_assoc.
  - unfold bind, lift. now rewrite app_nil_r.
Qed.

Lemma start_fresh (s : stream) :
  StreamRoute.start s (mk_controller [] false)
  = (Ok tt,
     mk_controller
       (map StreamRoute.token_record (filter nonempty (arrived s))
        ++ [terminal_record (failure s)])%list
       true).
Proof.
  unfold StreamRoute.start, try_catch, bind.
  rewrite for_await_open. cbn [app].
  destruct (failure s) as [e|]; reflexivity.
Qed.

(** C3. Whatever the backend stream does, the stream body holds, in order of
    arrival, one record [data: {"token":<fragment>}] and a blank line for
    each non-empty fragment that arrives before the stream ends or fails,
    none for an empty fragment, and then exactly one terminal record: the
    [event: done] / [data: [DONE]] record when the stream ends, the
    [event: error] record with the failure's message (or [stream error])
    when it fails.  The controller is closed after the terminal record, so
    that nothing can be enqueued after it. *)
Theorem stream_records (s : stream) :
  StreamRoute.start s (mk_controller [] false)
  = (Ok tt,
     mk_controller
       (map StreamRoute.token_record (filter nonempty (arrived s))
        ++ [terminal_record (failure s)])%list
       true)
  /\ StreamRoute.stream_response s
     = mk_response 200 StreamRoute.stream_headers
         (StreamBody (Ok tt)
            (mk_controller
               (map StreamRoute.token_record (filter nonempty (arrived s))
                ++ [terminal_record (failure s)])%list
               true))
  /\ (forall text,
        StreamRoute.token_record text
        = "data: {" ++ dq ++ "token" ++ dq ++ ":" ++ JSON_quote text ++ "}"
            ++ nl ++ nl)
  /\ terminal_record None
     = "event: done" ++ nl ++ "data: [DONE]" ++ nl ++ nl
  /\ (forall e,
        terminal_record (Some e)
        = "event: error" ++ nl ++ "data: {" ++ dq ++ "error" ++ dq ++ ":"
            ++ JSON_quote (match message e with
                           | Some m => m
                           | None => "stream error"
                           end)
            ++ "}" ++ nl ++ nl)
  /\ (forall chunk,
        fst (StreamRoute.enqueue chunk
               (snd (StreamRoute.start s (mk_controller [] false))))
        = Throw (TypeError ControllerClosed)).
Proof.
  split; [apply start_fresh|].
  split; [unfold StreamRoute.stream_response; now rewrite start_fresh|].
  split.
  { intros text. unfold StreamRoute.token_record, JSON_stringify_field.
    now rewrite !append_assoc. }
  split; [reflexivity|].
  split.
  { intros e. unfold terminal_record, StreamRoute.error_record,
      JSON_stringify_field, StreamRoute.message_or, ChatRoute.message_or.
    now rewrite !append_assoc. }
  intros chunk. now rewrite start_fresh.
Qed.

End StreamProperties.

(** The fragments [Hel] and [lo]: two token records, then the done record. *)
Example stream_hello :
  StreamRoute.POST (E := Examples.engine) Examples.with_key
    {| Http.json := JS.Ok Examples.sample_body |} Examples.hello_backend
  = (JS.Ok
       (Http.mk_response 200 StreamRoute.stream_headers
          (Http.StreamBody (JS.Ok tt)
             (Http.mk_controller
                [StreamRoute.token_record "Hel";
                 StreamRoute.token_record "lo";
                 StreamRoute.done_record]
                true))),
     [Gemini.CallGenerateContentStream
        [Shared.user_turn Shared.SYSTEM_PREAMBLE;
         Gemini.Content.mk "user" [Gemini.Part.mk "hi"];
         Gemini.Content.mk "model" [Gemini.Part.mk "Hello"];
         Shared.user_turn ""]]).
Proof. reflexivity. Qed.

(** A failure after one fragment: its record, then the error record. *)
Example stream_failure :
  snd (StreamRoute.start (E := Examples.engine)
         (Gemini.StreamChunk (JS.Ok "Hel")
            (Gemini.StreamChunk (JS.Ok "")
               (Gemini.StreamThrows (JS.Exn (Some "quota")))))
         (Http.mk_controller [] false))
  = Http.mk_controller
      [StreamRoute.token_record "Hel";
       "event: error" ++ JS.nl ++ "data: {" ++ JS.dq ++ "error" ++ JS.dq ++ ":"
         ++ JS.dq ++ "quota" ++ JS.dq ++ "}" ++ JS.nl ++ JS.nl]
      true.
Proof. reflexivity. Qed.

(* ================================================================== *)
(** * Properties of the page                                           *)
(* ================================================================== *)

Section PageProperties.
Import JS Page Spec Wire.
Context {E : Engine}.

(** ** The updater of the streaming loop *)

Lemma assign_last (f : Msg.t -> Msg.t) (pre : list Msg.t) (m : Msg.t) :
  assign (List.length pre) f (pre ++ [m]) = (pre ++ [f m])%list.
Proof.
  induction pre as [|x pre IH]; cbn [List.length app assign];
    [reflexivity|now rewrite IH].
Qed.

Lemma replace_last_snoc (text : string) (pre : list Msg.t) (m : Msg.t) :
  replace_last text (pre ++ [m]) = (pre ++ [Msg.mk (Msg.role m) text])%list.
Proof.
  unfold replace_last. rewrite length_app. cbn [List.length].
  rewrite Nat.add_1_r. apply assign_last.
Qed.


(** ** One line, a list of lines, a whole body *)

Lemma on_line_token (line acc : string) (s : ui) :
  on_line line acc s
  = match line_token line with
    | None => (Ok acc, s)
    | Some t =>
        (Ok (acc ++ t),
         mk_ui (replace_last (acc ++ t) (messages s))
               (input s) (useStreaming s) (isLoading s))
    end.
Proof.
  unfold on_line, line_token.
  destruct (String.eqb_spec (trim line) "") as [->|_]; [reflexivity|].
  destruct (startsWith (trim line) "data: "); [|reflexivity].
  destruct (String.eqb (slice 6 (trim line)) "[DONE]"); [reflexivity|].
  unfold try_catch, bind, lift, ret, setMessages, modify.
  destruct (JSON_parse (slice 6 (trim line))) as [obj|e]; [|reflexivity].
  destruct obj; cbn [token_of]; try reflexivity;
    (destruct (truthy _); [|reflexivity]);
    (destruct (String_ _) as [text|e]; reflexivity).
Qed.

(** ** A line as the streaming handler writes it *)

Lemma rev_onto_app (a b acc : string) :
  rev_onto (a ++ b) acc = rev_onto b (rev_onto a acc).
Proof.
  revert acc. induction a as [|c a IH]; intros acc; cbn [append rev_onto];
    [reflexivity|apply IH].
Qed.

Lemma rev_onto_rev_onto (a b c : string) :
  rev_onto (rev_onto a b) c = rev_onto b (a ++ c).
Proof.
  revert b c. induction a as [|x a IH]; intros b c; cbn [append rev_onto];
    [reflexivity|].
  now rewrite IH.
Qed.

Lemma strip_front_d (t : string) : strip false (String "d" t) = String "d" t.
Proof. destruct t as [|c2 [|c3 t3]]; reflexivity. Qed.

Lemma ws2_brace (c : ascii) : ws2 c "}" = false.
Proof. unfold ws2. apply andb_false_r. Qed.

Lemma ws3_brace (a b : ascii) : ws3 a b "}" = false.
Proof.
  unfold ws3. change (nat_of_ascii "}") with 125. cbn [Nat.eqb Nat.leb].
  rewrite ?andb_false_r. reflexivity.
Qed.

Lemma strip_back_brace (t : string) : strip true (String "}" t) = String "}" t.
Proof.
  destruct t as [|c2 [|c3 t3]]; cbn [strip]; change (ws1 "}") with false;
    cbn iota; rewrite ?ws2_brace, ?ws3_brace; reflexivity.
Qed.

(** A line from [d] to [}] has nothing to trim. *)
Lemma trim_d_brace (m : string) :
  trim (String "d" (m ++ "}")) = String "d" (m ++ "}").
Proof.
  unfold trim, trimStart, trimEnd, rev. rewrite strip_front_d.
  cbn [rev_onto]. rewrite rev_onto_app. cbn [rev_onto].
  rewrite strip_back_brace. cbn [rev_onto].
  now rewrite rev_onto_rev_onto.
Qed.

Lemma data_line_shape (k s : string) :
  "data: " ++ JSON_stringify_field k s
  = String "d" (("ata: {" ++ JSON_quote k ++ ":" ++ JSON_quote s) ++ "}").
Proof. unfold JSON_stringify_field. now rewrite !append_assoc. Qed.

Lemma line_token_data (k s : string) :
  line_token ("data: " ++ JSON_stringify_field k s)
  = match JSON_parse (JSON_stringify_field k s) with
    | Ok VNull | Ok VUndefined => None
    | Ok obj =>
        if truthy (get obj "token") then
          match String_ (get obj "token") with
          | Ok text => Some text
          | Throw _ => None
          end
        else None
    | Throw _ => None
    end.
Proof.
  unfold line_token. rewrite data_line_shape, trim_d_brace, <- data_line_shape.
  reflexivity.
Qed.

Lemma line_token_token (t : string) :
  parses_back "token" t -> t <> "" ->
  line_token ("data: " ++ JSON_stringify_field "token" t) = Some t.
Proof.
  intros Hp Ht. rewrite line_token_data, Hp.
  cbn [get own String.eqb Ascii.eqb Bool.eqb truthy].
  now destruct (String.eqb_spec t "").
Qed.

Lemma line_token_error (m : string) :
  parses_back "error" m ->
  line_token ("data: " ++ JSON_stringify_field "error" m) = None.
Proof. intros Hp. rewrite line_token_data, Hp. reflexivity. Qed.



Lemma text_of_app (a b : list string) :
  text_of (a ++ b) = text_of a ++ text_of b.
Proof.
  induction a as [|t a IH]; cbn [app text_of fold_right]; [reflexivity|].
  fold (text_of (a ++ b)). fold (text_of a). now rewrite IH, append_assoc.
Qed.

Lemma for_lines_tokens (lines : list string) :
  forall (acc : string) (pre : list Msg.t) (role : string) (i : string)
         (u l : bool),
    for_lines lines acc (mk_ui (pre ++ [Msg.mk role acc]) i u l)
    = (Ok (acc ++ text_of (tokens_of_lines lines)),
       mk_ui (pre ++ [Msg.mk role (acc ++ text_of (tokens_of_lines lines))])
             i u l).
Proof.
  induction lines as [|line lines IH]; intros acc pre role i u l;
    cbn [for_lines tokens_of_lines].
  - cbn [text_of fold_right]. now rewrite append_nil_r.
  - unfold bind. rewrite on_line_token.
    destruct (line_token line) as [t|]; [|apply IH].
    cbn [messages input useStreaming isLoading].
    rewrite replace_last_snoc. cbn [Msg.role].
    rewrite IH. cbn [text_of fold_right]. fold (text_of (tokens_of_lines lines)).
    now rewrite append_assoc.
Qed.

Lemma read_loop_tokens (r : reader) :
  forall (acc : string) (pre : list Msg.t) (role : string) (i : string)
         (u l : bool),
    read_loop r acc (mk_ui (pre ++ [Msg.mk role acc]) i u l)
    = (ending r,
       mk_ui (pre ++ [Msg.mk role (acc ++ text_of (tokens_of r))]) i u l).
Proof.
  induction r as [|e|chunk rest IH]; intros acc pre role i u l;
    cbn [read_loop ending tokens_of].
  - cbn [text_of fold_right]. now rewrite append_nil_r.
  - cbn [text_of fold_right]. now rewrite append_nil_r.
  - unfold bind. rewrite for_lines_tokens, IH, text_of_app.
    now rewrite append_assoc.
Qed.



(** ** [sendStreaming] and [onSend] *)

Lemma sendStreaming_reads (net : network) (closure : ui) (prompt : string)
      (s : ui) (res : stream_response) (r : reader) :
  fetch_stream net (buildPayload closure prompt) = Ok res ->
  stream_ok res = true ->
  stream_body res = Some r ->
  sendStreaming net closure prompt s
  = (ending r,
     mk_ui (messages s ++ [Msg.mk "assistant" (text_of (tokens_of r))])
           (input s) (useStreaming s) (isLoading s)).
Proof.
  intros Hf Hok Hb.
  unfold sendStreaming, bind, lift, setMessages, modify.
  rewrite Hf, Hok, Hb.
  cbn [messages input useStreaming isLoading].
  now rewrite read_loop_tokens.
Qed.

Lemma sendStreaming_fails (net : network) (closure : ui) (prompt : string)
      (s : ui) :
  (exists e, fetch_stream net (buildPayload closure prompt) = Throw e)
  \/ (exists res, fetch_stream net (buildPayload closure prompt) = Ok res
                  /\ (stream_ok res = false \/ stream_body res = None)) ->
  exists e,
    sendStreaming net closure prompt s
    = (Throw e,
       mk_ui (messages s ++ [Msg.mk "assistant" ""])
             (input s) (useStreaming s) (isLoading s)).
Proof.
  unfold sendStreaming, bind, lift, setMessages, modify.
  intros [[e Hf]|[res [Hf Hres]]]; rewrite Hf.
  - now exists e.
  - exists (Exn (Some "Stream request failed")).
    destruct Hres as [H|H]; rewrite H; [reflexivity|].
    now destruct (stream_ok res).
Qed.


(** [onSend] past its guard: the input is cleared, the user message
    appended, the loading flag raised, and the send runs from there. *)
Lemma onSend_runs (net : network) (s : ui) :
  trim (input s) <> "" ->
  isLoading s = false ->
  onSend net s
  = try_finally
      (try_catch
         (if useStreaming s
          then sendStreaming net s (trim (input s))
          else sendNonStreaming net s (trim (input s)))
         (fun _ =>
            setMessages (fun m => m ++ [Msg.mk "assistant" fallback])%list))
      (fun s' => mk_ui (messages s') (input s') (useStreaming s') false)
      (mk_ui (messages s ++ [Msg.mk "user" (trim (input s))])
             "" (useStreaming s) true).
Proof.
  intros Hp Hl. unfold onSend.
  destruct (String.eqb_spec (trim (input s)) "") as [H|_]; [contradiction|].
  rewrite Hl. reflexivity.
Qed.


(** ** The claims about the page *)





(** C10. In streaming mode, when the stream request answers with a
    non-success status or without a body, the placeholder appended before
    the fetch stays: the submission leaves the user message, the placeholder
    with empty content, which a bubble shows as [Thinking...], and right
    after it the fallback message. *)
Theorem stream_failure_keeps_placeholder (net : network) (s : ui)
        (res : stream_response) :
  trim (input s) <> "" ->
  isLoading s = false ->
  useStreaming s = true ->
  fetch_stream net (buildPayload s (trim (input s))) = Ok res ->
  stream_ok res = false \/ stream_body res = None ->
  onSend net s
  = (Ok tt,
     mk_ui (messages s
            ++ [Msg.mk "user" (trim (input s));
                Msg.mk "assistant" "";
                Msg.mk "assistant" fallback])%list
           "" true false)
  /\ bubble_text "" = "Thinking...".
Proof.
  intros Hp Hl Hu Hf Hres. split; [|reflexivity].
  rewrite (onSend_runs _ _ Hp Hl), Hu.
  unfold try_finally, try_catch.
  destruct (sendStreaming_fails net s (trim (input s))
              (mk_ui (messages s ++ [Msg.mk "user" (trim (input s))])
                     "" true true)) as [e He].
  { right. now exists res. }
  rewrite He. unfold setMessages, modify.
  cbn [messages input useStreaming isLoading].
  now rewrite <- !app_assoc.
Qed.

End PageProperties.

(** ** Worked examples for the page *)

(** The tokens [A], [B], [C], framed as the streaming handler frames them:
    the assistant message reads [A], then [AB], then [ABC]. *)
Example stream_abc :
  Spec.tokens_of (E := Examples.engine) Examples.abc_body = ["A"; "B"; "C"]
  /\ map (fun k =>
            Page.messages
              (snd (Page.read_loop (E := Examples.engine)
                      (Spec.take k Examples.abc_body) ""
                      (Page.mk_ui [Page.Msg.mk "user" "hi";
                                   Page.Msg.mk "assistant" ""] "" true true))))
         [1; 2; 3]
     = [[Page.Msg.mk "user" "hi"; Page.Msg.mk "assistant" "A"];
        [Page.Msg.mk "user" "hi"; Page.Msg.mk "assistant" "AB"];
        [Page.Msg.mk "user" "hi"; Page.Msg.mk "assistant" "ABC"]].
Proof. split; reflexivity. Qed.


(** The page keeps no buffer between reads: when the connection cuts the
    record of a token in two, neither half is a record, and the token is
    lost. *)
Example split_record_loses_token :
  Page.read_loop (E := Examples.engine) Examples.split_body ""
    (Page.mk_ui [Page.Msg.mk "user" "hi"; Page.Msg.mk "assistant" ""]
                "" true true)
  = (JS.Ok tt,
     Page.mk_ui [Page.Msg.mk "user" "hi"; Page.Msg.mk "assistant" ""]
                "" true true).
Proof. reflexivity. Qed.


(** The same failure with streaming switched off: no placeholder. *)
Example failure_fallback_plain :
  Page.onSend (E := Examples.engine) Examples.failing_network Examples.typed_plain
  = (JS.Ok tt,
     Page.mk_ui
       [Page.Msg.mk "assistant" Page.greeting;
        Page.Msg.mk "user" "what is AI?";
        Page.Msg.mk "assistant" Page.fallback]
       "" false false).
Proof. reflexivity. Qed.

Lemma stream_failure_keeps_placeholder_witness :
  JS.trim (Page.input Examples.typed) <> ""
  /\ Page.isLoading Examples.typed = false
  /\ Page.useStreaming Examples.typed = true
  /\ Page.stream_body (Page.mk_stream_response true None) = None
  /\ Page.onSend (E := Examples.engine) Examples.bodiless_network Examples.typed
     = (JS.Ok tt,
        Page.mk_ui
          [Page.Msg.mk "assistant" Page.greeting;
           Page.Msg.mk "user" "what is AI?";
           Page.Msg.mk "assistant" "";
           Page.Msg.mk "assistant" Page.fallback]
          "" true false).
Proof.
  assert (Hp : JS.trim (Page.input Examples.typed) <> "") by discriminate.
  split; [exact Hp|]. repeat (split; [reflexivity|]).
  exact (proj1 (stream_failure_keeps_placeholder (E := Examples.engine)
                  Examples.bodiless_network Examples.typed
                  (Page.mk_stream_response true None)
                  Hp eq_refl eq_refl eq_refl (or_intror eq_refl))).
Defined.

(* ================================================================== *)
(** * Properties of the local-model handler                            *)
(* ================================================================== *)

Section LocalProperties.
Import JS LocalRoute.

Lemma allMessages_truthy (r : ChatRequest) (p : string) :
  system_prompt r = Some p -> p <> "" ->
  allMessages r = Message.mk "system" p :: messages r.
Proof.
  intros H Hp. unfold allMessages. rewrite H. cbn [truthy].
  now destruct (String.eqb_spec p "").
Qed.

Lemma allMessages_falsy (r : ChatRequest) :
  system_prompt r = None \/ system_prompt r = Some "" ->
  allMessages r = messages r.
Proof. unfold allMessages. now intros [->| ->]. Qed.

(** C9, as amended. The handler makes one outbound request, a POST to
    [http://localhost:11434/api/chat] with [stream: true].  Its messages are
    the provided ones, preceded by [{ role: "system", content: system_prompt }]
    when [system_prompt] is present and not the empty string, and unchanged
    when it is absent or empty.  Its model is the provided one when that is
    present and not empty, and [pirate-bot] when it is absent or empty.  Its
    temperature is the provided one when that is present, not zero and not
    NaN, and 0.8 when it is absent. *)
Theorem local_outbound_request (B : Type) (r : ChatRequest)
        (fetch : outbound -> outcome B) :
  snd (POST r fetch) = [outbound_of r]
  /\ url (outbound_of r) = "http://localhost:11434/api/chat"
  /\ method (outbound_of r) = "POST"
  /\ out_stream (out_body (outbound_of r)) = true
  /\ (forall p, system_prompt r = Some p -> p <> "" ->
        out_messages (out_body (outbound_of r))
        = Message.mk "system" p :: messages r)
  /\ (system_prompt r = None \/ system_prompt r = Some "" ->
        out_messages (out_body (outbound_of r)) = messages r)
  /\ (forall m, model r = Some m -> m <> "" ->
        out_model (out_body (outbound_of r)) = m)
  /\ (model r = None \/ model r = Some "" ->
        out_model (out_body (outbound_of r)) = "pirate-bot")
  /\ (forall t, temperature r = Some t -> truthy (VNum t) = true ->
        out_options_temperature (out_body (outbound_of r)) = t)
  /\ (temperature r = None ->
        out_options_temperature (out_body (outbound_of r)) = default_temperature).
Proof.
  repeat split.
  - intros p H Hp. now apply allMessages_truthy.
  - apply allMessages_falsy.
  - intros m H Hm. cbn. rewrite H. cbn [truthy].
    now destruct (String.eqb_spec m "").
  - intros [H|H]; cbn; now rewrite H.
  - intros t H Ht. unfold outbound_of.
    cbn [out_body out_options_temperature]. now rewrite H, Ht.
  - intros H. cbn. now rewrite H.
Qed.

End LocalProperties.

(** C9, as stated, fails: a [system_prompt] that is present but empty is not
    prepended. *)
Lemma empty_system_prompt_not_prepended :
  LocalRoute.system_prompt Examples.empty_system_prompt = Some ""
  /\ LocalRoute.out_messages
       (LocalRoute.out_body (LocalRoute.outbound_of Examples.empty_system_prompt))
     = [LocalRoute.Message.mk "user" "hi"]
  /\ [LocalRoute.Message.mk "user" "hi"]
     <> [LocalRoute.Message.mk "system" ""; LocalRoute.Message.mk "user" "hi"].
Proof. repeat split. discriminate. Qed.

(* ================================================================== *)
(** * Further properties of the two route handlers                     *)
(* ================================================================== *)

Section MoreRouteProperties.
Import JS Gemini Http Shared Spec.
Context {E : Engine}.

Lemma chat_POST_no_key (e : env) (body : value) (b : backend) :
  key_missing e = true ->
  ChatRoute.POST e {| json := Ok body |} b
  = (Ok (NextResponse_json (VObj [("error", VStr "Missing GOOGLE_API_KEY")]) 500),
     []).
Proof.
  intros Hk.
  unfold ChatRoute.POST, ChatRoute.POST_handler, try_catch, bind, lift, ret.
  cbn [json]. now rewrite Hk.
Qed.

Lemma stream_POST_no_key (e : env) (body : value) (b : backend) :
  key_missing e = true ->
  StreamRoute.POST e {| json := Ok body |} b
  = (Ok (NextResponse_text "Missing GOOGLE_API_KEY" 500), []).
Proof.
  intros Hk.
  unfold StreamRoute.POST, StreamRoute.POST_handler, try_catch, bind, lift, ret.
  cbn [json]. now rewrite Hk.
Qed.

Lemma POST_unparsable (e : env) (err : exn) (b : backend) :
  ChatRoute.POST e {| json := Throw err |} b
  = (Ok (NextResponse_json
           (VObj [("error", VStr (ChatRoute.message_or err "Server error"))]) 500),
     [])
  /\ StreamRoute.POST e {| json := Throw err |} b
     = (Ok (NextResponse_text (StreamRoute.message_or err "Server error") 500),
        []).
Proof. split; reflexivity. Qed.

Lemma stream_response_status (s : stream) :
  status (StreamRoute.stream_response s) = 200.
Proof.
  unfold StreamRoute.stream_response.
  now destruct (StreamRoute.start s (mk_controller [] false)).
Qed.

(** X1. The one-shot handler never throws: whatever the environment, the
    request and the backend do, it returns a response with status 200 or
    500 and makes at most one backend call; it answers 200 only when that
    call was made and returned, and then with the reply extracted from the
    result. *)
Theorem chat_POST_always_answers (e : env) (req : request) (b : backend) :
  exists r,
    fst (ChatRoute.POST e req b) = Ok r
    /\ (status r = 200 \/ status r = 500)
    /\ List.length (snd (ChatRoute.POST e req b)) <= 1
    /\ (status r = 200 ->
        exists contents result,
          snd (ChatRoute.POST e req b) = [CallGenerateContent contents]
          /\ generateContent b contents = Ok result
          /\ body_of r
             = JsonBody (VObj [("reply", VStr (ChatRoute.reply_text result))])).
Proof.
  destruct req as [[body|err]].
  - destruct (key_missing e) eqn:Hk.
    + rewrite (chat_POST_no_key _ _ b Hk). eexists. split; [reflexivity|].
      cbn. repeat split; auto. discriminate.
    + destruct (accepted body) eqn:Ha.
      * rewrite (chat_POST_reaches _ _ b _ Hk (build_contents_accepted _ Ha)).
        destruct (generateContent b _) as [result|thrown] eqn:Hg;
          eexists; (split; [reflexivity|]); cbn; repeat split; auto;
          try discriminate.
        intros _. eexists. exists result. now rewrite Hg.
      * destruct (build_contents_rejected _ Ha) as [thrown Hc].
        rewrite (chat_POST_stops _ _ b _ Hk Hc). eexists. split; [reflexivity|].
        cbn. repeat split; auto. discriminate.
  - rewrite (proj1 (POST_unparsable e err b)). eexists. split; [reflexivity|].
    cbn. repeat split; auto. discriminate.
Qed.

(** X2. The streaming handler never throws either: it returns status 200 or
    500 and makes at most one backend call; it answers 200, with the four
    event-stream headers, exactly when the streaming call was made and
    returned a stream, whatever that stream does afterwards. *)
Theorem stream_POST_always_answers (e : env) (req : request) (b : backend) :
  exists r,
    fst (StreamRoute.POST e req b) = Ok r
    /\ (status r = 200 \/ status r = 500)
    /\ List.length (snd (StreamRoute.POST e req b)) <= 1
    /\ (status r = 200 <->
        exists contents s,
          snd (StreamRoute.POST e req b) = [CallGenerateContentStream contents]
          /\ generateContentStream b contents = Ok s
          /\ r = StreamRoute.stream_response s
          /\ headers r = StreamRoute.stream_headers).
Proof.
  destruct req as [[body|err]].
  - destruct (key_missing e) eqn:Hk.
    + rewrite (stream_POST_no_key _ _ b Hk). eexists. split; [reflexivity|].
      cbn. repeat split; auto; try discriminate.
      intros (contents & s & H & _). discriminate.
    + destruct (accepted body) eqn:Ha.
      * rewrite (stream_POST_reaches _ _ b _ Hk (build_contents_accepted _ Ha)).
        destruct (generateContentStream b _) as [s|thrown] eqn:Hg;
          eexists; (split; [reflexivity|]); cbn [snd List.length].
        -- rewrite stream_response_status. repeat split; auto.
           intros _. eexists. exists s. rewrite Hg. repeat split.
           unfold StreamRoute.stream_response.
           now destruct (StreamRoute.start s (mk_controller [] false)).
        -- cbn. repeat split; auto; try discriminate.
           intros (contents & s & H & Hs & _). inversion H; subst.
           rewrite Hg in Hs. discriminate.
      * destruct (build_contents_rejected _ Ha) as [thrown Hc].
        rewrite (stream_POST_stops _ _ b _ Hk Hc). eexists. split; [reflexivity|].
        cbn. repeat split; auto; try discriminate.
        intros (contents & s & H & _). discriminate.
  - rewrite (proj2 (POST_unparsable e err b)). eexists. split; [reflexivity|].
    cbn. repeat split; auto; try discriminate.
    intros (contents & s & H & _). discriminate.
Qed.

(** X3. A key that is set but empty counts as missing: both handlers answer
    a parsed request as they do without a key, and call nothing. *)
Theorem empty_key_is_missing (body : value) (b : backend) :
  ChatRoute.POST {| GOOGLE_API_KEY := Some "" |} {| json := Ok body |} b
  = ChatRoute.POST {| GOOGLE_API_KEY := None |} {| json := Ok body |} b
  /\ StreamRoute.POST {| GOOGLE_API_KEY := Some "" |} {| json := Ok body |} b
     = StreamRoute.POST {| GOOGLE_API_KEY := None |} {| json := Ok body |} b
  /\ snd (ChatRoute.POST {| GOOGLE_API_KEY := Some "" |} {| json := Ok body |} b)
     = []
  /\ snd (StreamRoute.POST {| GOOGLE_API_KEY := Some "" |} {| json := Ok body |} b)
     = [].
Proof. repeat split. Qed.

(** X4. When the backend call itself fails, each handler has made exactly
    that one call and answers 500 with the failure's message, or with
    [Server error] when the failure carries none: as a JSON [error] field on
    the one-shot endpoint, as plain text on the streaming endpoint, where no
    stream is opened. *)
Theorem backend_failure_answer (e : env) (body : value) (b : backend)
        (thrown : exn) :
  key_missing e = false ->
  accepted body = true ->
  generateContent b
    (expected_contents (survivors (entries_of body)) (prompt_text body))
  = Throw thrown ->
  generateContentStream b
    (expected_contents (survivors (entries_of body)) (prompt_text body))
  = Throw thrown ->
  ChatRoute.POST e {| json := Ok body |} b
  = (Ok (NextResponse_json
           (VObj [("error",
                   VStr match message thrown with
                        | Some m => m
                        | None => "Server error"
                        end)])
           500),
     [CallGenerateContent
        (expected_contents (survivors (entries_of body)) (prompt_text body))])
  /\ StreamRoute.POST e {| json := Ok body |} b
     = (Ok (NextResponse_text
              match message thrown with
              | Some m => m
              | None => "Server error"
              end
              500),
        [CallGenerateContentStream
           (expected_contents (survivors (entries_of body)) (prompt_text body))]).
Proof.
  intros Hk Ha Hg Hs.
  pose proof (build_contents_accepted _ Ha) as Hc.
  rewrite (chat_POST_reaches _ _ b _ Hk Hc), (stream_POST_reaches _ _ b _ Hk Hc).
  now rewrite Hg, Hs.
Qed.

Lemma survivors_nonblank (entries : list value) :
  Forall (fun m => trim (Msg.content m) <> "") (survivors entries).
Proof.
  induction entries as [|m rest IH]; cbn [survivors]; [constructor|].
  destruct (String.eqb_spec (trim (content_text m)) ""); [exact IH|].
  now constructor.
Qed.

Lemma survivors_length (entries : list value) :
  List.length (survivors entries) <= List.length entries.
Proof.
  induction entries as [|m rest IH]; cbn [survivors List.length]; [lia|].
  destruct (String.eqb _ ""); cbn [List.length]; lia.
Qed.

Lemma build_contents_ok_accepted (body : value) (contents : list Content.t) :
  build_contents body = Ok contents -> accepted body = true.
Proof.
  intros H. destruct (accepted body) eqn:Ha; [reflexivity|].
  destruct (build_contents_rejected _ Ha) as [thrown Ht]. congruence.
Qed.

(** X5. Whatever contents are built for the backend, every turn has exactly
    one part and the role user or model, no turn taken from the history has
    blank text, and there are at least two turns and at most two more than
    the history has entries. *)
Theorem contents_invariants (body : value) (contents : list Content.t) :
  build_contents body = Ok contents ->
  Forall (fun c =>
            (Content.role c = "user" \/ Content.role c = "model")
            /\ List.length (Content.parts c) = 1)
         contents
  /\ 2 <= List.length contents <= 2 + List.length (entries_of body)
  /\ exists middle,
       contents
       = (user_turn SYSTEM_PREAMBLE :: middle
          ++ [user_turn (prompt_text body)])%list
       /\ Forall (fun c => exists text,
                    Content.parts c = [Part.mk text] /\ trim text <> "")
                 middle.
Proof.
  intros H. pose proof (build_contents_ok_accepted _ _ H) as Ha.
  rewrite (build_contents_accepted _ Ha) in H. inversion H as [Hc]. clear H.
  unfold expected_contents.
  assert (Hmid : Forall (fun c =>
                           (Content.role c = "user" \/ Content.role c = "model")
                           /\ List.length (Content.parts c) = 1)
                        (map turn_of (survivors (entries_of body)))).
  { rewrite Forall_map. apply Forall_forall. intros m _. unfold turn_of.
    cbn. destruct (String.eqb (Msg.role m) "assistant"); auto. }
  split.
  { constructor; [cbn; auto|]. apply Forall_app. split; [exact Hmid|].
    constructor; [cbn; auto|constructor]. }
  split.
  { cbn [List.length]. rewrite length_app, length_map. cbn [List.length].
    pose proof (survivors_length (entries_of body)). lia. }
  exists (map turn_of (survivors (entries_of body))). split; [reflexivity|].
  rewrite Forall_map.
  eapply Forall_impl; [|apply survivors_nonblank].
  intros m Hm. exists (Msg.content m). now split.
Qed.

End MoreRouteProperties.

Lemma backend_failure_answer_witness :
  Http.key_missing Examples.with_key = false
  /\ Spec.accepted (E := Examples.engine) Examples.sample_body = true
  /\ ChatRoute.POST (E := Examples.engine) Examples.with_key
       {| Http.json := JS.Ok Examples.sample_body |}
       (MoreExamples.failing_backend MoreExamples.quota)
     = (JS.Ok (Http.NextResponse_json
                 (JS.VObj [("error", JS.VStr "quota exceeded")]) 500),
        [Gemini.CallGenerateContent
           [Shared.user_turn Shared.SYSTEM_PREAMBLE;
            Gemini.Content.mk "user" [Gemini.Part.mk "hi"];
            Gemini.Content.mk "model" [Gemini.Part.mk "Hello"];
            Shared.user_turn ""]]).
Proof.
  split; [reflexivity|]. split; [reflexivity|].
  exact (proj1 (backend_failure_answer (E := Examples.engine)
                  Examples.with_key Examples.sample_body
                  (MoreExamples.failing_backend MoreExamples.quota)
                  MoreExamples.quota eq_refl eq_refl eq_refl eq_refl)).
Defined.

Lemma contents_invariants_witness :
  Shared.build_contents (E := Examples.engine) Examples.sample_body
  = JS.Ok [Shared.user_turn Shared.SYSTEM_PREAMBLE;
           Gemini.Content.mk "user" [Gemini.Part.mk "hi"];
           Gemini.Content.mk "model" [Gemini.Part.mk "Hello"];
           Shared.user_turn ""]
  /\ 2 <= 4 <= 2 + List.length (Spec.entries_of Examples.sample_body).
Proof.
  split; [reflexivity|].
  exact (proj1 (proj2 (contents_invariants (E := Examples.engine)
                         Examples.sample_body _ eq_refl))).
Defined.

(* ================================================================== *)
(** * The page and the handlers, end to end                            *)
(* ================================================================== *)

Section WireProperties.
Import JS Spec Wire.
Context {E : Engine}.

(** ** What the page posts is always accepted *)

Lemma payload_contents_coercible (l : list Page.Msg.t) :
  forallb (fun m => coercible (nullish_or (opt_get m "content") (VStr "")))
          (map msg_value l) = true.
Proof. induction l as [|m l IH]; [reflexivity|exact IH]. Qed.

Lemma payload_accepted (p : Page.payload) : accepted (payload_body p) = true.
Proof.
  unfold accepted, prompt_accepted, history_accepted.
  cbn [payload_body Shared.historyUnsafe opt_get get own String.eqb Ascii.eqb
       Bool.eqb nullish_or coercible andb].
  apply payload_contents_coercible.
Qed.

Lemma payload_survivors (l : list Page.Msg.t) :
  survivors (map msg_value l)
  = map as_history (filter (fun m => nonblank (Page.Msg.content m)) l).
Proof.
  induction l as [|m l IH]; [reflexivity|].
  cbn [map survivors filter].
  change (content_text (msg_value m)) with (Page.Msg.content m).
  rewrite nonblank_trim.
  destruct (String.eqb (trim (Page.Msg.content m)) ""); cbn [negb]; [exact IH|].
  cbn [map]. rewrite IH. reflexivity.
Qed.

(** X6. Whatever messages and prompt the page holds, the body it posts is
    one the handlers' coercions accept: the prompt arrives unchanged and the
    sanitized history is the page's history without the messages whose
    content is blank (the streaming placeholder among them), in order.
    With the credential present, either handler therefore calls the backend
    with the persona turn, those messages and the prompt. *)
Theorem page_request_reaches_backend (p : Page.payload) (e : Http.env)
        (b : Gemini.backend) :
  accepted (payload_body p) = true
  /\ Shared.prompt_of (payload_body p) = Ok (Page.prompt p)
  /\ Shared.history_of (payload_body p)
     = Ok (map as_history
               (filter (fun m => nonblank (Page.Msg.content m)) (Page.history p)))
  /\ (Http.key_missing e = false ->
      snd (ChatRoute.POST e {| Http.json := Ok (payload_body p) |} b)
      = [Gemini.CallGenerateContent
           (expected_contents
              (map as_history
                   (filter (fun m => nonblank (Page.Msg.content m))
                           (Page.history p)))
              (Page.prompt p))]
      /\ snd (StreamRoute.POST e {| Http.json := Ok (payload_body p) |} b)
         = [Gemini.CallGenerateContentStream
              (expected_contents
                 (map as_history
                      (filter (fun m => nonblank (Page.Msg.content m))
                              (Page.history p)))
                 (Page.prompt p))]).
Proof.
  pose proof (payload_accepted p) as Ha.
  assert (Hs : survivors (entries_of (payload_body p))
               = map as_history
                     (filter (fun m => nonblank (Page.Msg.content m))
                             (Page.history p))).
  { change (entries_of (payload_body p)) with (map msg_value (Page.history p)).
    apply payload_survivors. }
  assert (Hp : prompt_text (payload_body p) = Page.prompt p) by reflexivity.
  split; [exact Ha|]. split; [reflexivity|].
  split.
  { unfold accepted in Ha. apply andb_true_iff in Ha as [_ Hh].
    now rewrite (history_of_accepted _ Hh), Hs. }
  intros Hk. pose proof (build_contents_accepted _ Ha) as Hc.
  rewrite Hs, Hp in Hc.
  now rewrite (chat_POST_reaches _ _ b _ Hk Hc), (stream_POST_reaches _ _ b _ Hk Hc).
Qed.

(** ** Records and lines *)

Lemma no_LF_app (a b : string) : no_LF (a ++ b) = no_LF a && no_LF b.
Proof.
  induction a as [|c a IH]; cbn [append no_LF]; [reflexivity|].
  now rewrite IH, andb_assoc.
Qed.

Lemma quote_byte_no_LF (c : ascii) : no_LF (quote_byte c) = true.
Proof. destruct c as [[] [] [] [] [] [] [] []]; reflexivity. Qed.

Lemma quote_bytes_no_LF (s : string) : no_LF (quote_bytes s) = true.
Proof.
  induction s as [|c s IH]; cbn [quote_bytes]; [reflexivity|].
  now rewrite no_LF_app, quote_byte_no_LF, IH.
Qed.


Lemma JSON_quote_no_LF (s : string) : no_LF (JSON_quote s) = true.
Proof.
  unfold JSON_quote. now rewrite !no_LF_app, quote_bytes_no_LF.
Qed.

Lemma JSON_stringify_field_no_LF (k s : string) :
  no_LF (JSON_stringify_field k s) = true.
Proof.
  unfold JSON_stringify_field. now rewrite !no_LF_app, !JSON_quote_no_LF.
Qed.

Lemma split_lines_one (a : string) : no_LF a = true -> split_lines a = [a].
Proof.
  induction a as [|c a IH]; cbn [no_LF split_lines]; [reflexivity|].
  intros H. apply andb_true_iff in H as [Hc Ha].
  destruct (Ascii.eqb c LF); [discriminate|]. now rewrite (IH Ha).
Qed.

Lemma split_lines_at (a b : string) :
  no_LF a = true -> split_lines (a ++ String LF b) = a :: split_lines b.
Proof.
  induction a as [|c a IH]; cbn [no_LF append split_lines].
  - intros _. reflexivity.
  - intros H. apply andb_true_iff in H as [Hc Ha].
    destruct (Ascii.eqb c LF); [discriminate|]. now rewrite (IH Ha).
Qed.

Lemma split_record (line : string) :
  no_LF line = true -> split_lines (line ++ nl ++ nl) = [line; ""; ""].
Proof. intros H. change (nl ++ nl) with (String LF nl). now rewrite split_lines_at. Qed.

Lemma split_token_record (text : string) :
  split_lines (StreamRoute.token_record text)
  = ["data: " ++ JSON_stringify_field "token" text; ""; ""].
Proof.
  unfold StreamRoute.token_record.
  rewrite <- append_assoc. apply split_record.
  now rewrite no_LF_app, JSON_stringify_field_no_LF.
Qed.

Lemma split_error_record (e : exn) :
  split_lines (StreamRoute.error_record e)
  = ["event: error";
     "data: " ++ JSON_stringify_field "error"
                   (StreamRoute.message_or e "stream error");
     ""; ""].
Proof.
  unfold StreamRoute.error_record.
  change ("event: error" ++ nl ++ "data: "
            ++ JSON_stringify_field "error"
                 (StreamRoute.message_or e "stream error") ++ nl ++ nl)
    with ("event: error"
            ++ String LF
                 ("data: "
                    ++ JSON_stringify_field "error"
                         (StreamRoute.message_or e "stream error")
                    ++ nl ++ nl)).
  rewrite split_lines_at by reflexivity. f_equal.
  rewrite <- append_assoc. apply split_record.
  now rewrite no_LF_app, JSON_stringify_field_no_LF.
Qed.

(** X7. However a fragment or a failure message reads, line feeds included,
    its record on the stream is one [data:] line followed by a blank line
    (after an [event: error] line for a failure): the text cannot break a
    record into several, nor end it early. *)
Theorem records_are_single_events (text : string) (e : exn) :
  split_lines (StreamRoute.token_record text)
  = ["data: " ++ JSON_stringify_field "token" text; ""; ""]
  /\ split_lines (StreamRoute.error_record e)
     = ["event: error";
        "data: " ++ JSON_stringify_field "error"
                      (StreamRoute.message_or e "stream error");
        ""; ""]
  /\ split_lines StreamRoute.done_record
     = ["event: done"; "data: [DONE]"; ""; ""]
  /\ no_LF (JSON_stringify_field "token" text) = true.
Proof.
  split; [apply split_token_record|].
  split; [apply split_error_record|].
  split; [reflexivity|apply JSON_stringify_field_no_LF].
Qed.

(** ** Lines of the stream, as the page reads them *)

Lemma tokens_of_deliver_app (a b : list string) :
  tokens_of (deliver (a ++ b))
  = (tokens_of (deliver a) ++ tokens_of (deliver b))%list.
Proof.
  induction a as [|c a IH]; cbn [app deliver tokens_of]; [reflexivity|].
  now rewrite IH, app_assoc.
Qed.

Lemma tokens_of_token_records (fragments : list string) :
  (forall t, In t fragments -> t <> "" -> parses_back "token" t) ->
  tokens_of (deliver (map StreamRoute.token_record (filter nonempty fragments)))
  = filter nonempty fragments.
Proof.
  induction fragments as [|t rest IH]; intros H; [reflexivity|].
  cbn [filter]. destruct (nonempty t) eqn:Hn.
  2: { apply IH. intros u Hu. apply H. now right. }
  assert (Ht : t <> "").
  { unfold nonempty in Hn. now destruct (String.eqb_spec t ""). }
  - cbn [map deliver tokens_of].
    rewrite split_token_record.
    cbn [tokens_of_lines].
    rewrite (line_token_token t (H t (or_introl eq_refl) Ht) Ht).
    change (line_token "") with (@None string). cbn [app].
    f_equal. apply IH. intros u Hu. apply H. now right.
Qed.

(** X8. What the streaming handler writes, the page reads back: when
    [JSON.parse] inverts [JSON.stringify] on the records of a backend stream
    and each enqueued chunk arrives as one read, the tokens the page
    extracts from the response body are exactly the non-empty fragments that
    arrived at the handler, in order; the done record and an error record
    contribute none. *)
Theorem stream_round_trip (s : Gemini.stream) :
  (forall t, In t (arrived s) -> t <> "" -> parses_back "token" t) ->
  (forall e, failure s = Some e ->
             parses_back "error" (StreamRoute.message_or e "stream error")) ->
  tokens_of
    (deliver (Http.queue
                (snd (StreamRoute.start s (Http.mk_controller [] false)))))
  = filter nonempty (arrived s).
Proof.
  intros Htok Herr. rewrite start_fresh. cbn [snd Http.queue].
  rewrite tokens_of_deliver_app, (tokens_of_token_records _ Htok).
  rewrite <- (app_nil_r (filter nonempty (arrived s))) at 2. f_equal.
  cbn [deliver tokens_of]. rewrite app_nil_r.
  destruct (failure s) as [e|]; cbn [terminal_record]; [|reflexivity].
  rewrite split_error_record.
  cbn [tokens_of_lines].
  change (line_token "event: error") with (@None string).
  rewrite (line_token_error _ (Herr e eq_refl)).
  reflexivity.
Qed.

End WireProperties.

Lemma stream_round_trip_witness :
  Spec.tokens_of (E := Examples.engine)
    (Wire.deliver
       (Http.queue
          (snd (StreamRoute.start (E := Examples.engine) Examples.hello_stream
                  (Http.mk_controller [] false)))))
  = ["Hel"; "lo"].
Proof.
  apply (stream_round_trip (E := Examples.engine) Examples.hello_stream).
  - intros t [<-|[<-|[]]] _; reflexivity.
  - intros e H. discriminate H.
Defined.

(* ================================================================== *)
(** * Further properties of the page                                   *)
(* ================================================================== *)

Section MorePageProperties.
Import JS Page Spec PageView.
Context {E : Engine}.

Lemma buildPayload_request (s : ui) :
  buildPayload s (trim (input s)) = request_of s.
Proof.
  unfold buildPayload, request_of. f_equal.
  induction (messages s) as [|[r c] l IH]; cbn [map]; [reflexivity|].
  now rewrite IH.
Qed.

Lemma send_disabled_guard (s : ui) :
  send_disabled s = (String.eqb (trim (input s)) "" || isLoading s).
Proof. unfold send_disabled. apply orb_comm. Qed.

Lemma onSend_disabled (net : network) (s : ui) :
  send_disabled s = true -> onSend net s = (Ok tt, s).
Proof.
  rewrite send_disabled_guard. intros H. unfold onSend. now rewrite H.
Qed.

Lemma enabled_guard (s : ui) :
  send_disabled s = false -> trim (input s) <> "" /\ isLoading s = false.
Proof.
  unfold send_disabled. intros H. apply orb_false_iff in H as [Hl Ht].
  split; [|exact Hl]. now destruct (String.eqb_spec (trim (input s)) "").
Qed.

(** [sendStreaming], whatever the network does. *)
Lemma sendStreaming_result (net : network) (closure : ui) (prompt : string)
      (s : ui) :
  exists (o : outcome unit) (text : string),
    sendStreaming net closure prompt s
    = (o, mk_ui (messages s ++ [Msg.mk "assistant" text])
                (input s) (useStreaming s) (isLoading s)).
Proof.
  destruct (fetch_stream net (buildPayload closure prompt)) as [res|e] eqn:Hf.
  - destruct (stream_ok res) eqn:Hok.
    + destruct (stream_body res) as [r|] eqn:Hb.
      * exists (ending r), (text_of (tokens_of r)).
        now apply sendStreaming_reads with (res := res).
      * destruct (sendStreaming_fails net closure prompt s) as [e He].
        { right. exists res. split; [exact Hf|now right]. }
        now exists (Throw e), "".
    + destruct (sendStreaming_fails net closure prompt s) as [e He].
      { right. exists res. split; [exact Hf|now left]. }
      now exists (Throw e), "".
  - destruct (sendStreaming_fails net closure prompt s) as [e' He].
    { left. now exists e. }
    now exists (Throw e'), "".
Qed.

(** [sendNonStreaming], whatever the network does. *)
Lemma sendNonStreaming_result (net : network) (closure : ui) (prompt : string)
      (s : ui) :
  sendNonStreaming net closure prompt s
  = match fetch_chat net (buildPayload closure prompt) with
    | Ok res =>
        if chat_ok res then
          match chat_json res with
          | Ok data =>
              (Ok tt,
               mk_ui (messages s
                      ++ [Msg.mk "assistant"
                            match reply data with Some t => t | None => "..." end])
                     (input s) (useStreaming s) (isLoading s))
          | Throw e => (Throw e, s)
          end
        else (Throw (Exn (Some "Request failed")), s)
    | Throw e => (Throw e, s)
    end.
Proof.
  unfold sendNonStreaming, bind, lift, setMessages, modify.
  destruct (fetch_chat net (buildPayload closure prompt)) as [res|e];
    [|reflexivity].
  destruct (chat_ok res); [|reflexivity].
  now destruct (chat_json res).
Qed.

(** What [onSend] leaves when its guard passes. *)
Lemma onSend_enabled (net : network) (s : ui) :
  send_disabled s = false ->
  exists rest,
    onSend net s
    = (Ok tt,
       mk_ui (messages s ++ Msg.mk "user" (trim (input s)) :: rest)
             "" (useStreaming s) false)
    /\ rest <> []
    /\ Forall (fun m => Msg.role m = "assistant") rest.
Proof.
  intros Hd. destruct (enabled_guard _ Hd) as [Hp Hl].
  rewrite (onSend_runs _ _ Hp Hl). unfold try_finally, try_catch.
  destruct (useStreaming s) eqn:Hu.
  - destruct (sendStreaming_result net s (trim (input s))
                (mk_ui (messages s ++ [Msg.mk "user" (trim (input s))])
                       "" true true)) as (o & text & Hs).
    rewrite Hs. cbn [messages input useStreaming isLoading].
    destruct o as [[]|e].
    + exists [Msg.mk "assistant" text].
      split; [now rewrite <- app_assoc|].
      split; [discriminate|]. repeat constructor.
    + exists [Msg.mk "assistant" text; Msg.mk "assistant" fallback].
      unfold setMessages, modify. cbn [messages input useStreaming isLoading].
      split; [now rewrite <- !app_assoc|].
      split; [discriminate|]. repeat constructor.
  - rewrite sendNonStreaming_result.
    destruct (fetch_chat net _) as [res|e];
      [destruct (chat_ok res); [destruct (chat_json res) as [data|e]|]|];
      unfold setMessages, modify; cbn [messages input useStreaming isLoading].
    + exists [Msg.mk "assistant"
                match reply data with Some t => t | None => "..." end].
      split; [now rewrite <- app_assoc|].
      split; [discriminate|]. repeat constructor.
    + exists [Msg.mk "assistant" fallback].
      split; [now rewrite <- app_assoc|].
      split; [discriminate|]. repeat constructor.
    + exists [Msg.mk "assistant" fallback].
      split; [now rewrite <- app_assoc|].
      split; [discriminate|]. repeat constructor.
    + exists [Msg.mk "assistant" fallback].
      split; [now rewrite <- app_assoc|].
      split; [discriminate|]. repeat constructor.
Qed.

(** X9. The send control and the handler agree.  Where the control is
    disabled (a request in flight, or an input that is blank once trimmed)
    [onSend] changes nothing, whatever the network would do; where it is
    enabled [onSend] never fails, clears the input, appends the trimmed
    input as a user message followed by at least one assistant message,
    keeps the streaming preference and leaves [isLoading] false. *)
Theorem send_control_agrees (net : network) (s : ui) :
  if send_disabled s
  then onSend net s = (Ok tt, s)
  else exists rest,
         onSend net s
         = (Ok tt,
            mk_ui (messages s ++ Msg.mk "user" (trim (input s)) :: rest)
                  "" (useStreaming s) false)
         /\ rest <> []
         /\ Forall (fun m => Msg.role m = "assistant") rest.
Proof.
  destruct (send_disabled s) eqn:Hd;
    [now apply onSend_disabled|now apply onSend_enabled].
Qed.

Lemma onSend_streamed (net : network) (s : ui)
      (res : stream_response) (r : reader) :
  send_disabled s = false ->
  useStreaming s = true ->
  fetch_stream net (request_of s) = Ok res ->
  stream_ok res = true ->
  stream_body res = Some r ->
  onSend net s
  = (Ok tt,
     mk_ui (messages s
            ++ [Msg.mk "user" (trim (input s));
                Msg.mk "assistant" (text_of (tokens_of r))]
            ++ match ending r with
               | Ok _ => []
               | Throw _ => [Msg.mk "assistant" fallback]
               end)
           "" true false).
Proof.
  intros Hd Hu Hf Hok Hb. destruct (enabled_guard _ Hd) as [Hp Hl].
  rewrite (onSend_runs _ _ Hp Hl), Hu. unfold try_finally, try_catch.
  rewrite <- buildPayload_request in Hf.
  rewrite (sendStreaming_reads net s _ _ res r Hf Hok Hb).
  cbn [messages input useStreaming isLoading].
  destruct (ending r) as [[]|e];
    unfold setMessages, modify; cbn [messages input useStreaming isLoading];
    now rewrite <- !app_assoc.
Qed.

Lemma onSend_plain (net : network) (s : ui) :
  send_disabled s = false ->
  useStreaming s = false ->
  onSend net s
  = (Ok tt,
     mk_ui (messages s
            ++ [Msg.mk "user" (trim (input s));
                Msg.mk "assistant" (answer_text (fetch_chat net (request_of s)))])
           "" false false).
Proof.
  intros Hd Hu. destruct (enabled_guard _ Hd) as [Hp Hl].
  rewrite (onSend_runs _ _ Hp Hl), Hu. unfold try_finally, try_catch.
  rewrite sendNonStreaming_result, buildPayload_request. unfold answer_text.
  destruct (fetch_chat net (request_of s)) as [res|e];
    [destruct (chat_ok res); [destruct (chat_json res) as [data|e]|]|];
    unfold setMessages, modify; cbn [messages input useStreaming isLoading];
    now rewrite <- app_assoc.
Qed.

(** X10. With streaming off, every submission that passes the guard appends
    exactly two messages, the trimmed input as a user message and one
    assistant message: the reply of the response, [...] when the response
    has none, and the fallback text when the call rejects, answers with a
    non-success status, or has a body that does not parse. *)
Theorem plain_send_appends_two (net : network) (s : ui) :
  send_disabled s = false ->
  useStreaming s = false ->
  onSend net s
  = (Ok tt,
     mk_ui (messages s
            ++ [Msg.mk "user" (trim (input s));
                Msg.mk "assistant" (answer_text (fetch_chat net (request_of s)))])
           "" false false).
Proof. apply onSend_plain. Qed.


Lemma onSend_stream_failed (net : network) (s : ui) :
  send_disabled s = false ->
  useStreaming s = true ->
  (exists e, fetch_stream net (request_of s) = Throw e)
  \/ (exists res, fetch_stream net (request_of s) = Ok res
                  /\ (stream_ok res = false \/ stream_body res = None)) ->
  onSend net s
  = (Ok tt,
     mk_ui (messages s
            ++ [Msg.mk "user" (trim (input s));
                Msg.mk "assistant" "";
                Msg.mk "assistant" fallback])
           "" true false).
Proof.
  intros Hd Hu Hf. destruct (enabled_guard _ Hd) as [Hp Hl].
  rewrite (onSend_runs _ _ Hp Hl), Hu. unfold try_finally, try_catch.
  destruct (sendStreaming_fails net s (trim (input s))
              (mk_ui (messages s ++ [Msg.mk "user" (trim (input s))])
                     "" true true)) as [e He].
  { now rewrite buildPayload_request. }
  rewrite He. unfold setMessages, modify.
  cbn [messages input useStreaming isLoading].
  now rewrite <- !app_assoc.
Qed.

Lemma onSend_same_request (net net' : network) (s : ui) :
  (if useStreaming s
   then fetch_stream net (request_of s) = fetch_stream net' (request_of s)
   else fetch_chat net (request_of s) = fetch_chat net' (request_of s)) ->
  onSend net s = onSend net' s.
Proof.
  intros H. unfold onSend.
  destruct (String.eqb (trim (input s)) "" || isLoading s); [reflexivity|].
  unfold bind, setInput, setMessages, setIsLoading, modify, try_finally,
    try_catch.
  destruct (useStreaming s).
  - unfold sendStreaming, bind, lift, setMessages, modify.
    rewrite buildPayload_request. now rewrite H.
  - unfold sendNonStreaming, bind, lift.
    rewrite buildPayload_request. now rewrite H.
Qed.

(** X12. The state a submission leaves depends on the network through one
    request and no other: the one to the streaming endpoint when the toggle
    is on, to the one-shot endpoint when it is off, with the messages held
    before the send as history and the trimmed input as prompt.  Two
    networks that answer that request alike leave the same state, whatever
    they do for any other endpoint or payload; and the answer to that
    request does reach the page: a network that rejects it and one that
    answers it with an empty success leave different states. *)
Theorem send_depends_on_one_request (net net' : network) (s : ui) :
  send_disabled s = false ->
  ((if useStreaming s
    then fetch_stream net (request_of s) = fetch_stream net' (request_of s)
    else fetch_chat net (request_of s) = fetch_chat net' (request_of s)) ->
   onSend net s = onSend net' s)
  /\ ((if useStreaming s
       then (exists e, fetch_stream net (request_of s) = Throw e)
            /\ fetch_stream net' (request_of s)
               = Ok (mk_stream_response true (Some ReadDone))
       else (exists e, fetch_chat net (request_of s) = Throw e)
            /\ fetch_chat net' (request_of s)
               = Ok (mk_chat_response true (Ok (mk_reply_data None None)))) ->
      onSend net s <> onSend net' s).
Proof.
  intros Hd. split; [apply onSend_same_request|].
  destruct (useStreaming s) eqn:Hu.
  - intros [[e He] Hok].
    rewrite (onSend_stream_failed net s Hd Hu (or_introl (ex_intro _ e He))).
    rewrite (onSend_streamed net' s _ ReadDone Hd Hu Hok eq_refl eq_refl).
    cbn [ending tokens_of text_of fold_right]. rewrite app_nil_r.
    intros H. inversion H as [Hm]. apply app_inv_head in Hm. discriminate.
  - intros [[e He] Hok].
    rewrite (onSend_plain net s Hd Hu), (onSend_plain net' s Hd Hu), He, Hok.
    cbn [answer_text chat_ok chat_json reply].
    intros H. inversion H as [Hm]. apply app_inv_head in Hm. discriminate.
Qed.

(** ** States the page can reach *)

Lemma handle_settled (ev : event) (s : ui) :
  settled s -> settled (snd (handle ev s)).
Proof.
  intros [Hl [rest Hm]].
  assert (Hsend : forall net, settled (snd (onSend net s))).
  { intros net. destruct (send_disabled s) eqn:Hd.
    - rewrite (onSend_disabled _ _ Hd). cbn [snd]. split; [exact Hl|now exists rest].
    - destruct (onSend_enabled net s Hd) as (added & Hs & _ & _).
      rewrite Hs. cbn [snd]. split; [reflexivity|].
      cbn [messages]. rewrite Hm. eexists. reflexivity. }
  destruct ev as [v| |net|key shift net]; cbn [handle].
  - split; [exact Hl|now exists rest].
  - split; [exact Hl|now exists rest].
  - apply Hsend.
  - unfold onKeyDown. destruct (String.eqb key "Enter" && negb shift);
      [apply Hsend|]. split; [exact Hl|now exists rest].
Qed.

Lemma run_settled (events : list event) :
  forall s, settled s -> settled (run events s).
Proof.
  induction events as [|ev events IH]; intros s Hs; [exact Hs|].
  apply IH. now apply handle_settled.
Qed.

(** X13. From the first render on, after any sequence of edits, toggles,
    clicks and key presses, each send having run to its end, whatever the
    network did: no request is in flight, so the typing indicator is off;
    the greeting is still the first message; and the empty-state panel is
    never shown. *)
Theorem page_stays_settled (events : list event) :
  isLoading (run events initial) = false
  /\ show_typing (run events initial) = false
  /\ (exists rest,
        messages (run events initial) = Msg.mk "assistant" greeting :: rest)
  /\ show_empty_state (run events initial) = false.
Proof.
  assert (H : settled (run events initial)).
  { apply run_settled. split; [reflexivity|]. now exists []. }
  destruct H as [Hl [rest Hm]].
  split; [exact Hl|]. split; [exact Hl|]. split; [now exists rest|].
  unfold show_empty_state. now rewrite Hm.
Qed.

End MorePageProperties.

Lemma plain_send_appends_two_witness :
  PageView.send_disabled Examples.typed_plain = false
  /\ Page.useStreaming Examples.typed_plain = false
  /\ Page.onSend (E := Examples.engine) Examples.bodiless_network
       Examples.typed_plain
     = (JS.Ok tt,
        Page.mk_ui
          [Page.Msg.mk "assistant" Page.greeting;
           Page.Msg.mk "user" "what is AI?";
           Page.Msg.mk "assistant" "hi"]
          "" false false).
Proof.
  split; [reflexivity|]. split; [reflexivity|].
  exact (plain_send_appends_two (E := Examples.engine)
           Examples.bodiless_network Examples.typed_plain eq_refl eq_refl).
Defined.


Lemma send_depends_on_one_request_witness :
  PageView.send_disabled Examples.typed = false
  /\ Page.fetch_stream Examples.rejecting_network
       (PageView.request_of Examples.typed)
     = Page.fetch_stream MoreExamples.chat_only_network
         (PageView.request_of Examples.typed)
  /\ Page.onSend (E := Examples.engine) Examples.rejecting_network Examples.typed
     = Page.onSend (E := Examples.engine) MoreExamples.chat_only_network
         Examples.typed
  /\ Page.onSend (E := Examples.engine) Examples.rejecting_network Examples.typed
     <> Page.onSend (E := Examples.engine) MoreExamples.empty_stream_network
          Examples.typed.
Proof.
  split; [reflexivity|]. split; [reflexivity|].
  split.
  - exact (proj1 (send_depends_on_one_request (E := Examples.engine)
                    Examples.rejecting_network MoreExamples.chat_only_network
                    Examples.typed eq_refl) eq_refl).
  - apply (proj2 (send_depends_on_one_request (E := Examples.engine)
                    Examples.rejecting_network MoreExamples.empty_stream_network
                    Examples.typed eq_refl)).
    split; [|reflexivity]. now exists (JS.Exn (Some "Failed to fetch")).
Defined.

(* ================================================================== *)
(** * Further properties of the local-model handler                    *)
(* ================================================================== *)

Section MoreLocalProperties.
Import JS LocalRoute.

(** X14. Whatever the request holds, the outbound request never carries an
    empty model nor a temperature that is zero or NaN: a provided
    temperature of zero is replaced by 0.8 like a missing one.  The provided
    messages are sent unchanged, after at most one system message, which is
    never empty.  The handler hands the upstream body back untouched under
    an event-stream content type, and catches nothing: if the outbound call
    rejects, so does the handler. *)
Theorem local_outbound_invariants (B : Type) (r : ChatRequest)
        (fetch : outbound -> outcome B) :
  out_model (out_body (outbound_of r)) <> ""
  /\ truthy (VNum (out_options_temperature (out_body (outbound_of r)))) = true
  /\ (forall t, temperature r = Some t -> truthy (VNum t) = false ->
        out_options_temperature (out_body (outbound_of r)) = default_temperature)
  /\ (exists before,
        out_messages (out_body (outbound_of r)) = (before ++ messages r)%list
        /\ List.length before <= 1
        /\ Forall (fun m => Message.role m = "system" /\ Message.content m <> "")
                  before)
  /\ fst (POST r fetch)
     = match fetch (outbound_of r) with
       | Ok upstream =>
           Ok (mk_passthrough [("Content-Type", "text/event-stream")] upstream)
       | Throw e => Throw e
       end.
Proof.
  split.
  { unfold outbound_of. cbn [out_body out_model].
    destruct (model r) as [m|]; [|discriminate].
    cbn [truthy]. destruct (String.eqb_spec m ""); cbn [negb];
      [discriminate|assumption]. }
  split.
  { unfold outbound_of. cbn [out_body out_options_temperature].
    destruct (temperature r) as [t|]; [|reflexivity].
    destruct (truthy (VNum t)) eqn:Ht; [exact Ht|reflexivity]. }
  split.
  { intros t Ht Hf. unfold outbound_of.
    cbn [out_body out_options_temperature]. now rewrite Ht, Hf. }
  split.
  { unfold outbound_of, allMessages. cbn [out_body out_messages].
    destruct (system_prompt r) as [p|]; [|exists []; repeat split; auto].
    cbn [truthy]. destruct (String.eqb_spec p ""); cbn [negb].
    - exists []. repeat split; auto.
    - exists [Message.mk "system" p]. repeat split; auto. }
  unfold POST. cbn [fst]. now destruct (fetch (outbound_of r)).
Qed.

End MoreLocalProperties.

(* ================================================================== *)
(** * The page served by the two handlers                              *)
(* ================================================================== *)

Section ServedProperties.
Import JS Spec Wire PageView.
Context {E : Engine}.

Lemma payload_build_contents (p : Page.payload) :
  Shared.build_contents (payload_body p)
  = Ok (expected_contents
          (map as_history
               (filter (fun m => nonblank (Page.Msg.content m)) (Page.history p)))
          (Page.prompt p)).
Proof.
  rewrite (build_contents_accepted _ (payload_accepted p)).
  change (entries_of (payload_body p)) with (map msg_value (Page.history p)).
  now rewrite payload_survivors.
Qed.

Lemma deliver_ends (chunks : list string) : ending (deliver chunks) = Ok tt.
Proof. induction chunks as [|c l IH]; [reflexivity|exact IH]. Qed.

Lemma text_of_nonempty (l : list string) :
  text_of (filter nonempty l) = text_of l.
Proof.
  induction l as [|t l IH]; [reflexivity|].
  cbn [filter text_of fold_right]. fold (text_of l). unfold nonempty at 1.
  destruct (String.eqb_spec t "") as [->|Ht]; cbn [negb]; [exact IH|].
  cbn [text_of fold_right]. fold (text_of (filter nonempty l)). now rewrite IH.
Qed.

Lemma onSend_stream_refused (net : Page.network) (s : Page.ui)
      (res : Page.stream_response) :
  send_disabled s = false ->
  Page.useStreaming s = true ->
  Page.fetch_stream net (request_of s) = Ok res ->
  Page.stream_ok res = false ->
  Page.onSend net s
  = (Ok tt,
     Page.mk_ui (Page.messages s
                 ++ [Page.Msg.mk "user" (trim (Page.input s));
                     Page.Msg.mk "assistant" "";
                     Page.Msg.mk "assistant" Page.fallback])
                "" true false).
Proof.
  intros Hd Hu Hf Hok. destruct (enabled_guard _ Hd) as [Hp Hl].
  rewrite (onSend_runs _ _ Hp Hl), Hu. unfold try_finally, try_catch.
  destruct (sendStreaming_fails net s (trim (Page.input s))
              (Page.mk_ui (Page.messages s
                           ++ [Page.Msg.mk "user" (trim (Page.input s))])
                          "" true true)) as [e He].
  { right. exists res. rewrite buildPayload_request. split; [exact Hf|now left]. }
  rewrite He. unfold Page.setMessages, modify.
  cbn [Page.messages Page.input Page.useStreaming Page.isLoading].
  now rewrite <- !app_assoc.
Qed.

(** X15. A streamed submission, end to end, over a connection that hands
    each chunk the handler enqueues to the page as one read.  With the
    credential present and [JSON.parse] inverting [JSON.stringify] on the
    records, when the backend returns a stream the page ends with the user
    message and one assistant message holding all the fragments that
    arrived, concatenated; the backend was called with the persona turn, the
    non-blank messages held before the send and the trimmed input.  If the
    backend stream fails part-way, the page shows the fragments that arrived
    before the failure and nothing else: the error record is not shown and
    no fallback message is added. *)
Theorem served_stream_send (e : Http.env) (b : Gemini.backend) (s : Page.ui)
        (st : Gemini.stream) :
  Http.key_missing e = false ->
  send_disabled s = false ->
  Page.useStreaming s = true ->
  Gemini.generateContentStream b
    (expected_contents
       (map as_history
            (filter (fun m => nonblank (Page.Msg.content m)) (Page.messages s)))
       (trim (Page.input s)))
  = Ok st ->
  (forall t, In t (arrived st) -> t <> "" -> parses_back "token" t) ->
  (forall err, failure st = Some err ->
               parses_back "error" (StreamRoute.message_or err "stream error")) ->
  Page.onSend (served e b) s
  = (Ok tt,
     Page.mk_ui (Page.messages s
                 ++ [Page.Msg.mk "user" (trim (Page.input s));
                     Page.Msg.mk "assistant" (text_of (arrived st))])
                "" true false).
Proof.
  intros Hk Hd Hu Hg Htok Herr.
  assert (Hf : Page.fetch_stream (served e b) (request_of s)
               = Ok (Page.mk_stream_response true
                       (Some (deliver
                                (Http.queue
                                   (snd (StreamRoute.start st
                                           (Http.mk_controller [] false)))))))).
  { cbn [served Page.fetch_stream]. unfold fetch_stream_from.
    rewrite (stream_POST_reaches _ _ b _ Hk (payload_build_contents _)).
    cbn [request_of Page.history Page.prompt]. rewrite Hg. cbn [fst].
    unfold StreamRoute.stream_response. rewrite start_fresh. reflexivity. }
  rewrite (onSend_streamed _ _ _ _ Hd Hu Hf eq_refl eq_refl).
  rewrite deliver_ends, app_nil_r.
  rewrite start_fresh in *. cbn [snd Http.queue] in *.
  rewrite tokens_of_deliver_app, (tokens_of_token_records _ Htok).
  replace (tokens_of (deliver [terminal_record (failure st)])) with (@nil string).
  { now rewrite app_nil_r, text_of_nonempty. }
  cbn [deliver tokens_of]. rewrite app_nil_r.
  destruct (failure st) as [err|]; cbn [terminal_record]; [|reflexivity].
  rewrite split_error_record. cbn [tokens_of_lines].
  change (line_token "event: error") with (@None string).
  now rewrite (line_token_error _ (Herr err eq_refl)).
Qed.

(** X16. A one-shot submission, end to end.  With the credential present
    the page ends with the user message and one assistant message: the
    text extracted from the backend's result when the backend call returns,
    the fallback text when it fails. *)
Theorem served_plain_send (e : Http.env) (b : Gemini.backend) (s : Page.ui) :
  Http.key_missing e = false ->
  send_disabled s = false ->
  Page.useStreaming s = false ->
  Page.onSend (served e b) s
  = (Ok tt,
     Page.mk_ui
       (Page.messages s
        ++ [Page.Msg.mk "user" (trim (Page.input s));
            Page.Msg.mk "assistant"
              match Gemini.generateContent b
                      (expected_contents
                         (map as_history
                              (filter (fun m => nonblank (Page.Msg.content m))
                                      (Page.messages s)))
                         (trim (Page.input s)))
              with
              | Ok result => ChatRoute.reply_text result
              | Throw _ => Page.fallback
              end])
       "" false false).
Proof.
  intros Hk Hd Hu. rewrite (onSend_plain _ _ Hd Hu).
  cbn [served Page.fetch_chat]. unfold fetch_chat_from.
  rewrite (chat_POST_reaches _ _ b _ Hk (payload_build_contents _)).
  cbn [request_of Page.history Page.prompt fst].
  now destruct (Gemini.generateContent b _).
Qed.

(** X17. Without a usable key the handlers answer 500, and the page turns
    that into the fallback message in either mode, after the empty
    placeholder when streaming. *)
Theorem served_without_key (e : Http.env) (b : Gemini.backend) (s : Page.ui) :
  Http.key_missing e = true ->
  send_disabled s = false ->
  Page.onSend (served e b) s
  = (Ok tt,
     Page.mk_ui
       (Page.messages s
        ++ [Page.Msg.mk "user" (trim (Page.input s))]
        ++ (if Page.useStreaming s then [Page.Msg.mk "assistant" ""] else [])
        ++ [Page.Msg.mk "assistant" Page.fallback])
       "" (Page.useStreaming s) false).
Proof.
  intros Hk Hd. destruct (Page.useStreaming s) eqn:Hu.
  - apply (onSend_stream_refused _ _
             (Page.mk_stream_response false (Some (deliver ["Missing GOOGLE_API_KEY"])))
             Hd Hu); [|reflexivity].
    cbn [served Page.fetch_stream]. unfold fetch_stream_from.
    now rewrite (stream_POST_no_key _ _ b Hk).
  - rewrite (onSend_plain _ _ Hd Hu).
    cbn [served Page.fetch_chat]. unfold fetch_chat_from.
    now rewrite (chat_POST_no_key _ _ b Hk).
Qed.

End ServedProperties.

Lemma served_stream_send_witness :
  Http.key_missing Examples.with_key = false
  /\ PageView.send_disabled Examples.typed = false
  /\ Page.useStreaming Examples.typed = true
  /\ Page.onSend (E := Examples.engine)
       (Wire.served (E := Examples.engine) Examples.with_key
          Examples.hello_backend)
       Examples.typed
     = (JS.Ok tt,
        Page.mk_ui
          [Page.Msg.mk "assistant" Page.greeting;
           Page.Msg.mk "user" "what is AI?";
           Page.Msg.mk "assistant" "Hello"]
          "" true false).
Proof.
  split; [reflexivity|]. split; [reflexivity|]. split; [reflexivity|].
  apply (served_stream_send (E := Examples.engine) Examples.with_key
           Examples.hello_backend Examples.typed Examples.hello_stream
           eq_refl eq_refl eq_refl eq_refl).
  - intros t [<-|[<-|[]]] _; reflexivity.
  - intros err H. discriminate H.
Defined.

Lemma served_plain_send_witness :
  Http.key_missing Examples.with_key = false
  /\ PageView.send_disabled Examples.typed_plain = false
  /\ Page.useStreaming Examples.typed_plain = false
  /\ Page.onSend (E := Examples.engine)
       (Wire.served (E := Examples.engine) Examples.with_key
          Examples.hello_backend)
       Examples.typed_plain
     = (JS.Ok tt,
        Page.mk_ui
          [Page.Msg.mk "assistant" Page.greeting;
           Page.Msg.mk "user" "what is AI?";
           Page.Msg.mk "assistant" "Hello there"]
          "" false false).
Proof.
  split; [reflexivity|]. split; [reflexivity|]. split; [reflexivity|].
  exact (served_plain_send (E := Examples.engine) Examples.with_key
           Examples.hello_backend Examples.typed_plain
           eq_refl eq_refl eq_refl).
Defined.

Lemma served_without_key_witness :
  Http.key_missing Examples.without_key = true
  /\ PageView.send_disabled Examples.typed = false
  /\ Page.onSend (E := Examples.engine)
       (Wire.served (E := Examples.engine) Examples.without_key
          Examples.hello_backend)
       Examples.typed
     = (JS.Ok tt,
        Page.mk_ui
          [Page.Msg.mk "assistant" Page.greeting;
           Page.Msg.mk "user" "what is AI?";
           Page.Msg.mk "assistant" "";
           Page.Msg.mk "assistant" Page.fallback]
          "" true false).
Proof.
  split; [reflexivity|]. split; [reflexivity|].
  exact (served_without_key (E := Examples.engine) Examples.without_key
           Examples.hello_backend Examples.typed eq_refl eq_refl).
Defined.
